(** * Session, API-request pipeline and role gating of the property-management client

    A shallow embedding of
      - services/api.ts       (the axios instance and its two interceptors),
      - App.tsx               (ProtectedRoute, AppRoutes),
      - pages/Dashboard.tsx   (the role switch),
      - components/Sidebar.tsx (the navigation list),
      - pages/Login.tsx       (onSubmit),
      - pages/Landlords.tsx, pages/StaffDashboard.tsx (their handlers),
      - pages/Invoices.tsx, pages/Payments.tsx, pages/Maintenance.tsx,
        components/EditPropertyModal.tsx (what their rows and lists show),
    over an explicit browser state: localStorage is a finite map from keys to
    strings, window.location is a path, and every side effect is appended to
    a chronological effect log. *)

From Stdlib Require Import ZArith.
From stdpp Require Import base strings gmap list.

(** ** JavaScript values *)

(** Truthiness of a JS string: only the empty string is falsy. *)
Definition truthy (s : string) : bool :=
  match s with
  | EmptyString => false
  | String _ _ => true
  end.

(** [a || b] on a possibly undefined string. *)
Definition or_else (a : option string) (b : string) : string :=
  match a with
  | Some s => if truthy s then s else b
  | None => b
  end.

(** ** Data model *)

Module User.
Record t := mk {
  id : string;
  fullName : string;
  email : string;
  role : string;
  status : string
}.
End User.

Record LoginFormData := { email : string; password : string }.

(** Request payloads, as far as the pipeline looks at them. *)
Inductive Payload :=
| NoData
| LoginData (d : LoginFormData)
| JsonData (fields : list (string * string))
| FormData (fields : list (string * string)).

(** Response payloads ([response.data]), as far as the modelled code reads
    them: the [token] field, the [data] field (absent when it is null or
    undefined; otherwise an object, whose [user] may itself be missing) and
    the [message] field. An empty body has none of them. *)
Record Body := mkBody {
  body_token : option string;
  body_data : option (option User.t);
  body_message : option string
}.

(** The login envelope [{ token, data: { user } }]. *)
Definition LoginBody (token : string) (user : User.t) : Body :=
  mkBody (Some token) (Some (Some user)) None.

(** [{ message }], without [data]. *)
Definition MessageBody (message : string) : Body :=
  mkBody None None (Some message).

(** A body that has none of the three fields. *)
Definition OpaqueBody : Body := mkBody None None None.

(** [{ data: { ... } }]: a [data] object that carries no user, no token. *)
Definition DataBody : Body := mkBody None (Some None) None.

Inductive Method := GET | POST | PATCH | DELETE.

Module Config.
Record t := mk {
  method : Method;
  baseURL : string;
  url : string;
  headers : gmap string string;
  data : Payload
}.
End Config.

Module Response.
Record t := mk {
  status : Z;
  data : Body
}.
End Response.

(** What can be thrown or rejected: an axios error (with the response when
    the server answered, without it for a network-level failure) or the
    TypeError of a failed destructuring. *)
Inductive JsError :=
| AxiosError (message : string) (response : option Response.t)
| TypeError (message : string).

(** [error.response] *)
Definition response_of (error : JsError) : option Response.t :=
  match error with
  | AxiosError _ r => r
  | TypeError _ => None
  end.

(** [error.response?.data?.message] *)
Definition response_message (error : JsError) : option string :=
  match response_of error with
  | Some r => body_message (Response.data r)
  | None => None
  end.

(** ** Browser state and effects *)

Inductive Effect :=
| RemoveItem (key : string)
| SetItem (key value : string)
| AssignHref (to : string)        (* window.location.href = to : full page load *)
| RouterNavigate (to : string)    (* react-router navigate(to) *)
| Send (config : Config.t)        (* the request as handed to the network *)
| ToastSuccess (msg : string)
| ToastError (msg : string)
| ConsoleError (label : string) (error : JsError)
| CallLogin (token : option string) (user : option User.t)
| CallLogout.

(** In-memory state of the auth provider. *)
Record AuthState := {
  token : option string;
  user : option User.t
}.

Record Browser := {
  localStorage : gmap string string;
  href : string;
  auth : AuthState;
  effects : list Effect
}.

Definition log (e : Effect) (b : Browser) : Browser :=
  {| localStorage := localStorage b; href := href b; auth := auth b;
     effects := effects b ++ [e] |}.

Definition getItem (key : string) (b : Browser) : option string :=
  localStorage b !! key.

Definition setItem (key value : string) (b : Browser) : Browser :=
  log (SetItem key value)
    {| localStorage := <[key := value]> (localStorage b); href := href b;
       auth := auth b; effects := effects b |}.

Definition removeItem (key : string) (b : Browser) : Browser :=
  log (RemoveItem key)
    {| localStorage := delete key (localStorage b); href := href b;
       auth := auth b; effects := effects b |}.

Definition assignHref (to : string) (b : Browser) : Browser :=
  log (AssignHref to)
    {| localStorage := localStorage b; href := to; auth := auth b;
       effects := effects b |}.

Definition navigate (to : string) (b : Browser) : Browser :=
  log (RouterNavigate to)
    {| localStorage := localStorage b; href := to; auth := auth b;
       effects := effects b |}.

Definition setAuth (a : AuthState) (b : Browser) : Browser :=
  {| localStorage := localStorage b; href := href b; auth := a;
     effects := effects b |}.

(** ** Promises over the browser state *)

Inductive Settled (A : Type) :=
| Fulfilled (a : A)
| Rejected (e : JsError).
Arguments Fulfilled {A} a.
Arguments Rejected {A} e.

Definition Promise (A : Type) : Type := Browser → Settled A * Browser.

Definition resolve {A} (a : A) : Promise A := λ b, (Fulfilled a, b).
Definition reject {A} (e : JsError) : Promise A := λ b, (Rejected e, b).

(** [await p] followed by the rest of an async function. *)
Definition await {A B} (p : Promise A) (k : A → Promise B) : Promise B :=
  λ b, match p b with
       | (Fulfilled a, b') => k a b'
       | (Rejected e, b') => (Rejected e, b')
       end.

(** [try { body } catch (error) { handler }] *)
Definition try_catch {A} (body : Promise A) (handler : JsError → Promise A)
  : Promise A :=
  λ b, match body b with
       | (Fulfilled a, b') => (Fulfilled a, b')
       | (Rejected e, b') => handler e b'
       end.

(** A synchronous statement. *)
Definition exec (f : Browser → Browser) : Promise unit :=
  λ b, (Fulfilled tt, f b).

Notation "'let*' x ':=' p 'in' k" := (await p (λ x, k))
  (at level 10, x name, p at level 100, k at level 200, only parsing).
Notation "p ;; k" := (await p (λ _, k))
  (at level 100, k at level 200, right associativity, only parsing).

(** ** services/api.ts

    The instance with both interceptors, the request one and the response
    one. *)

Definition apiBaseURL : string :=
  "https://prop-mgt-backend-api-production.up.railway.app/api/v1".

(** The network: what the server answers to an outgoing request, or no
    answer at all. *)
Inductive Reply :=
| Responded (r : Response.t)
| NoResponse (message : string).

Definition Adapter : Type := Config.t → Reply.

Definition setHeader (name value : string) (config : Config.t) : Config.t :=
  Config.mk (Config.method config) (Config.baseURL config) (Config.url config)
            (<[name := value]> (Config.headers config)) (Config.data config).

(** [[
api.interceptors.request.use((config) => {
  const token = localStorage.getItem('token');
  if (token) {
    config.headers.Authorization = `Bearer ${token}`;
  }
  return config;
});
]] *)
Definition requestInterceptor (config : Config.t) (b : Browser) : Config.t :=
  match getItem "token" b with
  | Some token =>
      if truthy token
      then setHeader "Authorization" ("Bearer " +:+ token) config
      else config
  | None => config
  end.

(** [error.response && error.response.status === 401] *)
Definition is401 (error : JsError) : bool :=
  match response_of error with
  | Some r => (Response.status r =? 401)%Z
  | None => false
  end.

(** [[
api.interceptors.response.use(
  (response) => response,
  (error) => {
    if (error.response && error.response.status === 401) {
      localStorage.removeItem('token');
      localStorage.removeItem('user');
      window.location.href = '/login';
    }
    return Promise.reject(error);
  }
);
]] *)
Definition onFulfilled (response : Response.t) : Promise Response.t :=
  resolve response.

Definition onRejected (error : JsError) : Promise Response.t :=
  (if is401 error
   then exec (removeItem "token") ;;
        exec (removeItem "user") ;;
        exec (assignHref "/login")
   else resolve tt) ;;
  reject error.

(** axios' default [validateStatus]: 2xx resolves, anything else rejects. *)
Definition validateStatus (status : Z) : bool :=
  ((200 <=? status) && (status <? 300))%Z.

(** axios' [settle]: the transport outcome as a settled promise. *)
Definition settle (reply : Reply) : Settled Response.t :=
  match reply with
  | Responded r =>
      if validateStatus (Response.status r)
      then Fulfilled r
      else Rejected (AxiosError "Request failed" (Some r))
  | NoResponse msg => Rejected (AxiosError msg None)
  end.

(** One request through the instance: request interceptor, network, then
    the response interceptor's handler matching the outcome. *)
Definition dispatch (adapter : Adapter) (config : Config.t)
  : Promise Response.t :=
  λ b,
    let sent := requestInterceptor config b in
    let b1 := log (Send sent) b in
    match settle (adapter sent) with
    | Fulfilled r => onFulfilled r b1
    | Rejected error => onRejected error b1
    end.

(** Headers of the instance before any interceptor ran: axios' common
    [Accept] default plus whatever the call site passes. Every call site of
    the repository passes either nothing or a [Content-Type]. *)
Definition defaultHeaders : gmap string string :=
  {[ "Accept" := "application/json, text/plain, */*" ]}.

Definition callHeaders (contentType : option string) : gmap string string :=
  match contentType with
  | Some ct => <["Content-Type" := ct]> defaultHeaders
  | None => defaultHeaders
  end.

Definition mkConfig (m : Method) (url : string) (data : Payload)
    (contentType : option string) : Config.t :=
  Config.mk m apiBaseURL url (callHeaders contentType) data.

(** [api.get(url)], [api.post(url, data)], [api.patch(url, data, {headers})],
    [api.delete(url)]. *)
Definition api_request (adapter : Adapter) (m : Method) (url : string)
    (data : Payload) (contentType : option string) : Promise Response.t :=
  dispatch adapter (mkConfig m url data contentType).

Definition api_get (adapter : Adapter) (url : string) :=
  api_request adapter GET url NoData None.
Definition api_post (adapter : Adapter) (url : string) (data : Payload) :=
  api_request adapter POST url data None.
Definition api_patch (adapter : Adapter) (url : string) (data : Payload) :=
  api_request adapter PATCH url data None.
Definition api_delete (adapter : Adapter) (url : string) :=
  api_request adapter DELETE url NoData None.

(** The [Authorization] header a request went out with. *)
Definition authorization (config : Config.t) : option string :=
  Config.headers config !! "Authorization".

(** ** context/AuthContext.tsx

    The provider itself is not among the available sources; only its
    consumers are ([useAuth] in App, Sidebar, Navbar, Dashboard, Login) and
    the storage keys 'token' and 'user' that services/api.ts removes. *)

Definition dquote : string := String (Ascii.ascii_of_nat 34) EmptyString.

Definition jsonField (key value : string) : string :=
  dquote +:+ key +:+ dquote +:+ ":" +:+ dquote +:+ value +:+ dquote.

(** Modelled from the spec: how the user profile [{ id, fullName, email,
    role, status }] is written under the 'user' key of the session store when
    it is persisted (the writer lives in the missing AuthContext). Rendered as
    a flat JSON object, without escaping. *)
Definition serializeUser (u : User.t) : string :=
  "{" +:+ jsonField "id" (User.id u) +:+ ","
      +:+ jsonField "fullName" (User.fullName u) +:+ ","
      +:+ jsonField "email" (User.email u) +:+ ","
      +:+ jsonField "role" (User.role u) +:+ ","
      +:+ jsonField "status" (User.status u) +:+ "}".

(** What the storage holds after [setItem(key, value)] with a value that is
    undefined: the string JavaScript makes of it. *)
Definition stringOf (value : option string) : string :=
  match value with
  | Some v => v
  | None => "undefined"
  end.

Definition stringifyUser (usr : option User.t) : option string :=
  match usr with
  | Some u => Some (serializeUser u)
  | None => None
  end.

(** Modelled from the spec: AuthContext.login, missing from the sources.
    "login(token, user): stores credentials via the Session Store [save:
    writes both values to durable client-side storage. No validation of
    token shape is performed], updates in-memory reactive state". Either
    argument may be undefined, since Login.tsx passes on what the response
    held; it is stored as it comes. *)
Definition login (tok : option string) (usr : option User.t) (b : Browser)
  : Browser :=
  setAuth {| token := tok; user := usr |}
    (setItem "user" (stringOf (stringifyUser usr))
       (setItem "token" (stringOf tok)
          (log (CallLogin tok usr) b))).

(** Modelled from the spec: AuthContext.logout, missing from the sources.
    "logout(): clears the Session Store [clear: removes both persisted
    values] and resets in-memory state; does not itself navigate". *)
Definition logout (b : Browser) : Browser :=
  setAuth {| token := None; user := None |}
    (removeItem "user"
       (removeItem "token"
          (log CallLogout b))).

(** Modelled from the spec: AuthContext.isAuthenticated, missing from the
    sources. "derived boolean — true iff a token is currently held". *)
Definition isAuthenticated (a : AuthState) : bool :=
  match token a with
  | Some _ => true
  | None => false
  end.

(** ** Rendered output *)

(** Leaf components whose markup is not looked into. *)
Inductive Screen :=
| Login | StaffDashboard | AdminDashboard
| Tenants | Properties | Landlords | Leases | Invoices | Payments
| Maintenance | AccountManagement | Navbar.

#[global] Instance Screen_eq_dec : EqDecision Screen.
Proof. solve_decision. Defined.

#[warnings="-register-all"]
Inductive Node :=
| Null                                              (* renders nothing *)
| Navigate (to : string) (replace : bool)           (* <Navigate to replace /> *)
| Fragment (children : list Node)                   (* <>...</> *)
| Page (s : Screen)
| Link (to : string) (active : bool) (label : string)
| Layout (sidebar : list Node) (main : list Node).

(** What reaches the document: fragments dissolve into their children. *)
Fixpoint dom (n : Node) : list Node :=
  match n with
  | Null => []
  | Fragment children => flat_map dom children
  | _ => [n]
  end.

(** Does the tree show the given screen anywhere? *)
Fixpoint shows (s : Screen) (n : Node) : bool :=
  match n with
  | Null | Navigate _ _ | Link _ _ _ => false
  | Page s' => bool_decide (s' = s)
  | Fragment children => existsb (shows s) children
  | Layout sidebar main => existsb (shows s) sidebar || existsb (shows s) main
  end.

(** Labels of the links directly in a list of nodes. *)
Definition linkLabels (ns : list Node) : list string :=
  flat_map (λ n, match n with Link _ _ label => [label] | _ => [] end) ns.

(** ** App.tsx: ProtectedRoute *)

(** [[
const ProtectedRoute = ({ children }) => {
  const { isAuthenticated } = useAuth();
  if (!isAuthenticated) {
    return <Navigate to="/login" replace />;
  }
  return <>{children}</>;
};
]] *)
Definition ProtectedRoute (isAuthenticated : bool) (children : Node) : Node :=
  if negb isAuthenticated
  then Navigate "/login" true
  else Fragment [children].

(** ** pages/Dashboard.tsx *)

(** [user?.role === r] *)
Definition roleIs (r : string) (user : option User.t) : bool :=
  match user with
  | Some u => String.eqb (User.role u) r
  | None => false
  end.

(** [[
export const Dashboard = () => {
  const { user } = useAuth();
  if (user?.role === 'STAFF') {
    return <StaffDashboard />;
  }
  return <AdminDashboard />;
};
]] *)
Definition Dashboard (user : option User.t) : Node :=
  if roleIs "STAFF" user
  then Page StaffDashboard
  else Page AdminDashboard.

(** ** components/Sidebar.tsx *)

Definition navItems : list (string * string) :=
  [ ("Dashboard", "/dashboard");
    ("Tenants", "/dashboard/tenants");
    ("Properties", "/dashboard/properties");
    ("Landlords", "/dashboard/landlords");
    ("Leases", "/dashboard/leases");
    ("Invoices", "/dashboard/invoices");
    ("Payments", "/dashboard/payments");
    ("Maintenance", "/dashboard/maintenance") ].

(** The children of the sidebar's [<nav>]: one link per item of [navItems],
    then [{user?.role === 'ADMIN' && (<Link to="/dashboard/account-management">
    Account Management</Link>)}]. *)
Definition Sidebar (user : option User.t) (pathname : string) : list Node :=
  map (λ item, Link (snd item) (String.eqb pathname (snd item)) (fst item))
      navItems
  ++ (if roleIs "ADMIN" user
      then [Link "/dashboard/account-management"
                 (String.eqb pathname "/dashboard/account-management")
                 "Account Management"]
      else []).

(** The common item set, by label. *)
Definition commonLabels : list string :=
  [ "Dashboard"; "Tenants"; "Properties"; "Landlords"; "Leases"; "Invoices";
    "Payments"; "Maintenance" ].

(** ** layouts/DashboardLayout.tsx *)

Definition DashboardLayout (user : option User.t) (pathname : string)
    (outlet : Node) : Node :=
  Layout (Sidebar user pathname) [Page Navbar; outlet].

(** ** App.tsx: AppRoutes *)

(** Elements as written in the route table. *)
Inductive Jsx :=
| JNavigate (to : string) (replace : bool)
| JPage (s : Screen)
| JDashboard
| JDashboardLayout
| JProtectedRoute (children : Jsx).

Inductive ChildRoute :=
| IndexRoute (element : Jsx)
| PathRoute (path : string) (element : Jsx).

Record Route := {
  path : string;
  element : Jsx;
  children : list ChildRoute
}.

Definition AppRoutes : list Route :=
  [ {| path := "/login"; element := JPage Login; children := [] |};
    {| path := "/dashboard";
       element := JProtectedRoute JDashboardLayout;
       children :=
         [ IndexRoute JDashboard;
           PathRoute "tenants" (JPage Tenants);
           PathRoute "properties" (JPage Properties);
           PathRoute "landlords" (JPage Landlords);
           PathRoute "leases" (JPage Leases);
           PathRoute "invoices" (JPage Invoices);
           PathRoute "payments" (JPage Payments);
           PathRoute "maintenance" (JPage Maintenance);
           PathRoute "account-management" (JPage AccountManagement) ] |};
    {| path := "/"; element := JNavigate "/dashboard" true; children := [] |} ].

Definition childElement (c : ChildRoute) : Jsx :=
  match c with
  | IndexRoute e => e
  | PathRoute _ e => e
  end.

(** Route matching for a table of static paths: the location is the parent
    path alone (index child, if any) or the parent path, a slash and a child
    path. The router itself also ignores letter case and a trailing slash;
    a location that differs from a table path only in that way is not
    matched here. *)
Fixpoint stripPrefix (p s : string) : option string :=
  match p, s with
  | EmptyString, _ => Some s
  | String a p', String c s' =>
      if Ascii.eqb a c then stripPrefix p' s' else None
  | String _ _, EmptyString => None
  end.

Definition isEmpty (s : string) : bool := negb (truthy s).

Definition matchChild (rest : string) (c : ChildRoute) : bool :=
  match c with
  | IndexRoute _ => isEmpty rest
  | PathRoute p _ => String.eqb rest ("/" +:+ p)
  end.

Definition matchRoute (pathname : string) (r : Route)
  : option (Route * option ChildRoute) :=
  match stripPrefix (path r) pathname with
  | None => None
  | Some rest =>
      match find (matchChild rest) (children r) with
      | Some c => Some (r, Some c)
      | None => if isEmpty rest then Some (r, None) else None
      end
  end.

Fixpoint matchRoutes (pathname : string) (routes : list Route)
  : option (Route * option ChildRoute) :=
  match routes with
  | [] => None
  | r :: rest =>
      match matchRoute pathname r with
      | Some m => Some m
      | None => matchRoutes pathname rest
      end
  end.

(** Rendering an element of the table; [outlet] is what [<Outlet />] stands
    for inside the layout. *)
Fixpoint render (a : AuthState) (pathname : string) (outlet : Node) (e : Jsx)
  : Node :=
  match e with
  | JNavigate to r => Navigate to r
  | JPage s => Page s
  | JDashboard => Dashboard (user a)
  | JDashboardLayout => DashboardLayout (user a) pathname outlet
  | JProtectedRoute ch =>
      ProtectedRoute (isAuthenticated a) (render a pathname outlet ch)
  end.

Definition renderRoutes (a : AuthState) (pathname : string) : Node :=
  match matchRoutes pathname AppRoutes with
  | Some (r, c) =>
      let outlet :=
        match c with
        | Some c => render a pathname Null (childElement c)
        | None => Null
        end in
      render a pathname outlet (element r)
  | None => Null
  end.

(** ** pages/Login.tsx: onSubmit *)

Definition toast_success (msg : string) : Promise unit :=
  exec (log (ToastSuccess msg)).
Definition toast_error (msg : string) : Promise unit :=
  exec (log (ToastError msg)).
Definition console_error (label : string) (error : JsError) : Promise unit :=
  exec (log (ConsoleError label error)).

(** What [const { token, data: { user } } = response.data] throws when
    [response.data.data] is null or undefined. With a [data] object the
    destructuring succeeds, and [token] or [user] is undefined when the
    body does not hold it. *)
Definition destructureError : JsError :=
  TypeError "Cannot destructure property 'user' of 'response.data.data'".

(** [[
const onSubmit = async (data) => {
  try {
    const response = await api.post('/auth/login', data);
    const { token, data: { user } } = response.data;
    login(token, user);
    toast.success('Welcome back!');
    navigate('/dashboard');
  } catch (error) {
    console.error('Login failed', error);
    toast.error(error.response?.data?.message || 'Login failed');
  }
};
]] *)
Definition onSubmit (adapter : Adapter) (data : LoginFormData)
  : Promise unit :=
  try_catch
    (let* response := api_post adapter "/auth/login" (LoginData data) in
     match body_data (Response.data response) with
     | Some usr =>
         exec (login (body_token (Response.data response)) usr) ;;
         toast_success "Welcome back!" ;;
         exec (navigate "/dashboard")
     | None => reject destructureError
     end)
    (λ error,
       console_error "Login failed" error ;;
       toast_error (or_else (response_message error) "Login failed")).

(** ** Sessions as sequences of events *)

Inductive Event :=
| DoRequest (adapter : Adapter) (m : Method) (url : string) (data : Payload)
            (contentType : option string)      (* any view calls the client *)
| DoSubmit (adapter : Adapter) (data : LoginFormData)  (* the login form *)
| DoLogin (tok : string) (usr : User.t)        (* login(token, user) *)
| DoLogout.                                    (* Sign Out *)

Definition step (b : Browser) (ev : Event) : Browser :=
  match ev with
  | DoRequest adapter m url data ct => snd (api_request adapter m url data ct b)
  | DoSubmit adapter data => snd (onSubmit adapter data b)
  | DoLogin tok usr => login (Some tok) (Some usr) b
  | DoLogout => logout b
  end.

Definition run (b : Browser) (evs : list Event) : Browser :=
  fold_left step evs b.

(** A browser that has never held a session. *)
Definition fresh : Browser :=
  {| localStorage := ∅; href := "/";
     auth := {| token := None; user := None |}; effects := [] |}.

Definition isCallLogin (e : Effect) : bool :=
  match e with
  | CallLogin _ _ => true
  | _ => false
  end.

(** Number of [login] calls recorded so far. *)
Definition loginCalls (b : Browser) : nat :=
  length (List.filter isCallLogin (effects b)).

(** The most recent [login] call, if any. *)
Fixpoint lastLogin (fx : list Effect)
  : option (option string * option User.t) :=
  match fx with
  | [] => None
  | e :: rest =>
      match lastLogin rest with
      | Some p => Some p
      | None =>
          match e with
          | CallLogin tok usr => Some (tok, usr)
          | _ => None
          end
      end
  end.

(** The persisted pair and the in-memory pair. *)
Definition stored (b : Browser) : option string * option string :=
  (getItem "token" b, getItem "user" b).

Definition held (b : Browser) : option string * option User.t :=
  (token (auth b), user (auth b)).

(** What the 401 branch of the response interceptor does to the browser. *)
Definition cleared (b : Browser) : Browser :=
  assignHref "/login" (removeItem "user" (removeItem "token" b)).

(** What the catch block of [onSubmit] does to the browser. *)
Definition loginFailure (error : JsError) (b : Browser) : Browser :=
  log (ToastError (or_else (response_message error) "Login failed"))
      (log (ConsoleError "Login failed" error) b).

(** The login request as it leaves the client. *)
Definition loginRequest (data : LoginFormData) (b : Browser) : Config.t :=
  requestInterceptor (mkConfig POST "/auth/login" (LoginData data) None) b.

(** Token and user go together: the store holds neither, or the token and
    the serialized profile of the most recent [login] call; likewise for the
    provider's in-memory state. *)
Definition paired (b : Browser) : Prop :=
  (stored b = (None, None)
   ∨ ∃ tok usr, lastLogin (effects b) = Some (Some tok, Some usr)
                ∧ stored b = (Some tok, Some (serializeUser usr)))
  ∧ (held b = (None, None)
     ∨ ∃ tok usr, lastLogin (effects b) = Some (Some tok, Some usr)
                  ∧ held b = (Some tok, Some usr)).

(** A body keeps to the fixed shape of the login response when its [data]
    object, if it has one, holds a user and the body holds a token. A body
    without a [data] object is never handed to [login]. *)
Definition completeEnvelope (body : Body) : Prop :=
  match body_data body with
  | Some usr => is_Some (body_token body) ∧ is_Some usr
  | None => True
  end.

(** A server all of whose 2xx answers keep to that shape. *)
Definition keepsShape (adapter : Adapter) : Prop :=
  ∀ config r,
    adapter config = Responded r →
    validateStatus (Response.status r) = true →
    completeEnvelope (Response.data r).

(** An event whose login response, if there is one, keeps to the shape. *)
Definition wellShaped (ev : Event) : Prop :=
  match ev with
  | DoSubmit adapter _ => keepsShape adapter
  | _ => True
  end.

(** How one operation may move the session: it logs no [login] call and
    leaves each of the two pairs as it was or empties it, or it logs a
    [login] call and both pairs are the ones of that call. *)
Inductive Footprint (b b' : Browser) : Prop :=
| KeepsOrClears (gx : list Effect) :
    effects b' = effects b ++ gx →
    List.filter isCallLogin gx = [] →
    stored b' = stored b ∨ stored b' = (None, None) →
    held b' = held b ∨ held b' = (None, None) →
    Footprint b b'
| LogsIn (gx : list Effect) (tok : option string) (usr : option User.t) :
    effects b' = effects b ++ gx →
    lastLogin gx = Some (tok, usr) →
    stored b' = (Some (stringOf tok), Some (stringOf (stringifyUser usr))) →
    held b' = (tok, usr) →
    Footprint b b'.

(** ** Sample data *)

Definition alice : User.t :=
  User.mk "u1" "Alice Staff" "alice@example.com" "STAFF" "ACTIVE".

Definition root : User.t :=
  User.mk "u0" "Root Admin" "root@example.com" "ADMIN" "ACTIVE".

Definition auditor : User.t :=
  User.mk "u2" "Audit Or" "audit@example.com" "AUDITOR" "ACTIVE".

Definition credentials : LoginFormData :=
  {| email := "alice@example.com"; password := "secret1" |}.

(** A server that answers every request with the given status. *)
Definition answering (status : Z) (body : Body) : Adapter :=
  λ _, Responded (Response.mk status body).

(** No answer at all. *)
Definition offline : Adapter := λ _, NoResponse "Network Error".

(** A browser in which alice is logged in. *)
Definition aliceLoggedIn : Browser := login (Some "t0") (Some alice) fresh.

(** A 200 answer to the login request that carries a token and a [data]
    object without a user: [{ token: 't1', data: {} }]. *)
Definition tokenOnly : Body := mkBody (Some "t1") (Some None) None.

(** Replies and errors used in the examples. *)
Definition unauthorized : Response.t :=
  Response.mk 401 (MessageBody "jwt expired").

Definition badCredentials : Response.t :=
  Response.mk 401 (MessageBody "Invalid credentials").

Definition expired : JsError := AxiosError "Request failed" (Some unauthorized).

Definition serverError : JsError :=
  AxiosError "Request failed" (Some (Response.mk 500 (MessageBody "boom"))).

(** alice's browser after [GET /tenants] was answered with 200. *)
Definition afterTenants : Browser :=
  snd (api_get (answering 200 OpaqueBody) "/tenants" aliceLoggedIn).

(** What happens between the 401 and the next request in the example: a
    request that gets no answer, a login attempt that the server refuses, a
    click on Sign Out. *)
Definition interlude : list Event :=
  [ DoRequest offline GET "/invoices" NoData None;
    DoSubmit (answering 400 (MessageBody "Invalid credentials")) credentials;
    DoLogout ].

(** The same browser after alice opened the login route again. *)
Definition aliceAtLogin : Browser :=
  {| localStorage := localStorage aliceLoggedIn; href := "/login";
     auth := auth aliceLoggedIn; effects := effects aliceLoggedIn |}.

(** ** Locations and links *)

(** The router acts on a rendered [<Navigate>] by moving to its target and
    rendering again; [follow n] does so up to [n] times and returns the
    location it ends at with what is rendered there. *)
Fixpoint follow (fuel : nat) (a : AuthState) (pathname : string)
  : string * Node :=
  match renderRoutes a pathname with
  | Navigate to r =>
      match fuel with
      | O => (pathname, Navigate to r)
      | S fuel' => follow fuel' a to
      end
  | n => (pathname, n)
  end.

Definition isNavigate (n : Node) : bool :=
  match n with
  | Navigate _ _ => true
  | _ => false
  end.

(** Targets of the links in a list of nodes, and of those rendered active. *)
Definition linkTargets (ns : list Node) : list string :=
  flat_map (λ n, match n with Link to _ _ => [to] | _ => [] end) ns.

Definition activeTargets (ns : list Node) : list string :=
  flat_map (λ n, match n with Link to true _ => [to] | _ => [] end) ns.

(** ** pages/Invoices.tsx: what a table row shows *)

Module Invoice.
Record t := mk {
  id : string;
  tenant : option string;       (* tenant?.fullName *)
  amount : Z;
  dueDate : string;
  status : string;
  type : string
}.
End Invoice.

(** [[
const getStatusColor = (status: string) => {
  switch (status) {
    case 'PAID': return 'bg-emerald-500/10 text-emerald-500';
    case 'PENDING': return 'bg-orange-500/10 text-orange-500';
    case 'OVERDUE': return 'bg-red-500/10 text-red-500';
    case 'PARTIALLY_PAID': return 'bg-blue-500/10 text-blue-500';
    default: return 'bg-gray-500/10 text-gray-500';
  }
};
]] *)
Definition getStatusColor (status : string) : string :=
  if String.eqb status "PAID" then "bg-emerald-500/10 text-emerald-500"
  else if String.eqb status "PENDING" then "bg-orange-500/10 text-orange-500"
  else if String.eqb status "OVERDUE" then "bg-red-500/10 text-red-500"
  else if String.eqb status "PARTIALLY_PAID" then "bg-blue-500/10 text-blue-500"
  else "bg-gray-500/10 text-gray-500".

(** The status each action button of a row asks for:
    [{invoice.status !== 'PAID' && (<button onClick={() =>
    handleStatusUpdate(invoice.id, 'PAID')}>)}] and the same with
    'CANCELLED'. *)
Definition rowActions (invoice : Invoice.t) : list string :=
  (if negb (String.eqb (Invoice.status invoice) "PAID") then ["PAID"] else [])
  ++ (if negb (String.eqb (Invoice.status invoice) "CANCELLED")
      then ["CANCELLED"] else []).

(** [invoice.id.substring(0, 8)]; ids are ASCII, so code units and
    characters coincide. *)
Definition shortId (id : string) : string := String.substring 0 8 id.

(** ** pages/Payments.tsx: the record-payment modal *)

(** [inv.status !== 'PAID' && inv.status !== 'CANCELLED'] *)
Definition isPending (inv : Invoice.t) : bool :=
  negb (String.eqb (Invoice.status inv) "PAID")
  && negb (String.eqb (Invoice.status inv) "CANCELLED").

(** [response.data.data.invoices.filter(...)] in [fetchPendingInvoices]. *)
Definition pendingInvoices (invoices : list Invoice.t) : list Invoice.t :=
  List.filter isPending invoices.

(** [[
if (selectedInvoiceId) {
  const invoice = invoices.find(inv => inv.id === selectedInvoiceId);
  if (invoice) { setValue('amount', invoice.amount); }
}
]]
    The result is the amount handed to [setValue], if it is called. *)
Definition autofillAmount (selectedInvoiceId : string)
    (invoices : list Invoice.t) : option Z :=
  if truthy selectedInvoiceId
  then match List.find (λ inv, String.eqb (Invoice.id inv) selectedInvoiceId)
                       invoices with
       | Some invoice => Some (Invoice.amount invoice)
       | None => None
       end
  else None.

(** ** pages/Maintenance.tsx: the status label *)

(** [s.replace(c, d)] with one-character strings: only the first
    occurrence is replaced. *)
Fixpoint replaceFirst (c d : Ascii.ascii) (s : string) : string :=
  match s with
  | EmptyString => EmptyString
  | String x s' =>
      if Ascii.eqb x c then String d s' else String x (replaceFirst c d s')
  end.

Definition underscore : Ascii.ascii := Ascii.ascii_of_nat 95.
Definition space : Ascii.ascii := Ascii.ascii_of_nat 32.

(** [ticket.status.replace('_', ' ')] *)
Definition statusLabel (status : string) : string :=
  replaceFirst underscore space status.

Fixpoint occurrences (c : Ascii.ascii) (s : string) : nat :=
  match s with
  | EmptyString => 0
  | String x s' => (if Ascii.eqb x c then 1 else 0) + occurrences c s'
  end.

(** ** components/EditPropertyModal.tsx: the unit list *)

Module Unit.
Record t := mk {
  id : string;
  name : string;
  status : string
}.
End Unit.

(** [currentStatus === 'VACANT' ? 'OCCUPIED' : 'VACANT'] *)
Definition toggledStatus (currentStatus : string) : string :=
  if String.eqb currentStatus "VACANT" then "OCCUPIED" else "VACANT".

(** [existingUnits.map(unit => unit.id === unitId ? { ...unit, status:
    newStatus } : unit)] *)
Definition withStatus (unitId newStatus : string) (existingUnits : list Unit.t)
  : list Unit.t :=
  map (λ unit, if String.eqb (Unit.id unit) unitId
               then Unit.mk (Unit.id unit) (Unit.name unit) newStatus
               else unit)
      existingUnits.

(** [[
const markUnitForDeletion = (unitId: string) => {
  setUnitsToDelete([...unitsToDelete, unitId]);
  setExistingUnits(existingUnits.filter(unit => unit.id !== unitId));
};
]]
    on the pair (unitsToDelete, existingUnits). *)
Definition markUnitForDeletion (unitId : string)
    (st : list string * list Unit.t) : list string * list Unit.t :=
  (fst st ++ [unitId],
   List.filter (λ unit, negb (String.eqb (Unit.id unit) unitId)) (snd st)).

(** A call that brings an [Authorization] header of its own. *)
Definition presetConfig : Config.t :=
  Config.mk GET apiBaseURL "/tenants"
            (<["Authorization" := "Basic abc"]> defaultHeaders) NoData.

(** alice's browser with an unrelated entry in the storage. *)
Definition aliceWithTheme : Browser :=
  {| localStorage := <["theme" := "dark"]> (localStorage aliceLoggedIn);
     href := "/dashboard"; auth := auth aliceLoggedIn;
     effects := effects aliceLoggedIn |}.

(** ** Handlers of a component

    A handler runs against the component's state and the browser. State
    setters are applied as they are called; a handler reads the state it
    closes over before it sets anything. *)

Definition Task (S A : Type) : Type := S → Browser → Settled A * S * Browser.

Definition finish {S A} (a : A) : Task S A := λ s b, (Fulfilled a, s, b).

Definition throw {S A} (e : JsError) : Task S A := λ s b, (Rejected e, s, b).

Definition andThen {S A B} (t : Task S A) (k : A → Task S B) : Task S B :=
  λ s b, match t s b with
         | (Fulfilled a, s', b') => k a s' b'
         | (Rejected e, s', b') => (Rejected e, s', b')
         end.

(** [await p] inside a handler. *)
Definition awaitP {S A} (p : Promise A) : Task S A :=
  λ s b, match p b with
         | (r, b') => (r, s, b')
         end.

Definition setState {S} (f : S → S) : Task S unit :=
  λ s b, (Fulfilled tt, f s, b).

(** [try { body } catch (error) { handler } finally { finalizer }] *)
Definition tryCatchFinally {S} (body : Task S unit)
    (handler : JsError → Task S unit) (finalizer : Task S unit)
  : Task S unit :=
  λ s b,
    match (match body s b with
           | (Fulfilled a, s', b') => (Fulfilled a, s', b')
           | (Rejected e, s', b') => handler e s' b'
           end) with
    | (r, s1, b1) =>
        match finalizer s1 b1 with
        | (Fulfilled _, s2, b2) => (r, s2, b2)
        | (Rejected e, s2, b2) => (Rejected e, s2, b2)
        end
    end.

(** [try { body } catch (error) { handler }] *)
Definition tryCatch {S} (body : Task S unit) (handler : JsError → Task S unit)
  : Task S unit :=
  tryCatchFinally body handler (finish tt).

(** A call to an async function whose promise is dropped: the caller goes
    on whatever the outcome. The callee's continuation only touches state
    and effects that the rest of the caller neither reads nor writes, so it
    is run at the place of the call. *)
Definition fireAndForget {S} (t : Task S unit) : Task S unit :=
  λ s b, match t s b with
         | (_, s', b') => (Fulfilled tt, s', b')
         end.

Notation "'let+' x ':=' t 'in' k" := (andThen t (λ x, k))
  (at level 10, x name, t at level 100, k at level 200, only parsing).
Notation "t ;;; k" := (andThen t (λ _, k))
  (at level 100, k at level 200, right associativity, only parsing).

(** What reading a property of [undefined] throws. *)
Definition accessError : JsError :=
  TypeError "Cannot read properties of undefined".

(** ** pages/Landlords.tsx *)

Module Landlord.
Record t := mk {
  id : string;
  fullName : string;
  email : string;
  phone : option string;
  phoneNumber : option string;
  properties : option nat         (* properties?.length *)
}.
End Landlord.

Module LandlordsPage.

Record State := mkState {
  landlords : option (list Landlord.t);   (* nothing: undefined *)
  loading : bool;
  isAddModalOpen : bool;
  isEditModalOpen : bool;
  selectedLandlord : option Landlord.t;
  isDeleteModalOpen : bool;
  landlordToDelete : option string;
  isDeleting : bool
}.

(** The [useState] defaults. *)
Definition initial : State :=
  mkState (Some []) true false false None false None false.

Definition setLandlords (v : option (list Landlord.t)) (s : State) : State :=
  mkState v (loading s) (isAddModalOpen s) (isEditModalOpen s)
          (selectedLandlord s) (isDeleteModalOpen s) (landlordToDelete s)
          (isDeleting s).

Definition setLoading (v : bool) (s : State) : State :=
  mkState (landlords s) v (isAddModalOpen s) (isEditModalOpen s)
          (selectedLandlord s) (isDeleteModalOpen s) (landlordToDelete s)
          (isDeleting s).

Definition setIsEditModalOpen (v : bool) (s : State) : State :=
  mkState (landlords s) (loading s) (isAddModalOpen s) v
          (selectedLandlord s) (isDeleteModalOpen s) (landlordToDelete s)
          (isDeleting s).

Definition setSelectedLandlord (v : option Landlord.t) (s : State) : State :=
  mkState (landlords s) (loading s) (isAddModalOpen s) (isEditModalOpen s)
          v (isDeleteModalOpen s) (landlordToDelete s) (isDeleting s).

Definition setIsDeleteModalOpen (v : bool) (s : State) : State :=
  mkState (landlords s) (loading s) (isAddModalOpen s) (isEditModalOpen s)
          (selectedLandlord s) v (landlordToDelete s) (isDeleting s).

Definition setLandlordToDelete (v : option string) (s : State) : State :=
  mkState (landlords s) (loading s) (isAddModalOpen s) (isEditModalOpen s)
          (selectedLandlord s) (isDeleteModalOpen s) v (isDeleting s).

Definition setIsDeleting (v : bool) (s : State) : State :=
  mkState (landlords s) (loading s) (isAddModalOpen s) (isEditModalOpen s)
          (selectedLandlord s) (isDeleteModalOpen s) (landlordToDelete s) v.

(** The [landlords] field of [response.data.data] when that is an object:
    the list, or nothing when the object has no such field, in which case
    the expression is undefined and nothing is thrown. (When
    [response.data.data] is null or undefined the access throws; that is the
    body's [data] being absent.) The shape of the payload is the backend's. *)
Definition Decoder : Type := Response.t → option (list Landlord.t).

(** [[
const fetchLandlords = async () => {
  try {
    const response = await api.get('/landlords');
    setLandlords(response.data.data.landlords);
  } catch (error) {
    console.error('Failed to fetch landlords', error);
    toast.error('Failed to fetch landlords');
  } finally {
    setLoading(false);
  }
};
]] *)
Definition fetchLandlords (adapter : Adapter) (landlordsOf : Decoder)
  : Task State unit :=
  tryCatchFinally
    (let+ response := awaitP (api_get adapter "/landlords") in
     match body_data (Response.data response) with
     | Some _ => setState (setLandlords (landlordsOf response))
     | None => throw accessError
     end)
    (λ error,
       awaitP (console_error "Failed to fetch landlords" error) ;;;
       awaitP (toast_error "Failed to fetch landlords"))
    (setState (setLoading false)).

(** [[
const handleEdit = (landlord: any) => {
  setSelectedLandlord(landlord);
  setIsEditModalOpen(true);
};
]] *)
Definition handleEdit (landlord : Landlord.t) : Task State unit :=
  setState (setSelectedLandlord (Some landlord)) ;;;
  setState (setIsEditModalOpen true).

(** [[
const confirmDelete = (id: string) => {
  setLandlordToDelete(id);
  setIsDeleteModalOpen(true);
};
]] *)
Definition confirmDelete (id : string) : Task State unit :=
  setState (setLandlordToDelete (Some id)) ;;;
  setState (setIsDeleteModalOpen true).

(** [[
const handleDelete = async () => {
  if (!landlordToDelete) return;

  setIsDeleting(true);
  try {
    await api.delete(`/landlords/${landlordToDelete}`);
    toast.success('Landlord deleted successfully');
    fetchLandlords();
    setIsDeleteModalOpen(false);
  } catch (error: any) {
    console.error('Failed to delete landlord', error);
    toast.error(error.response?.data?.message || 'Failed to delete landlord');
  } finally {
    setIsDeleting(false);
    setLandlordToDelete(null);
  }
};
]] *)
Definition deleteSelected (adapter : Adapter) (landlordsOf : Decoder)
    (id : string) : Task State unit :=
  setState (setIsDeleting true) ;;;
  tryCatchFinally
    (awaitP (api_delete adapter ("/landlords/" +:+ id)) ;;;
     awaitP (toast_success "Landlord deleted successfully") ;;;
     fireAndForget (fetchLandlords adapter landlordsOf) ;;;
     setState (setIsDeleteModalOpen false))
    (λ error,
       awaitP (console_error "Failed to delete landlord" error) ;;;
       awaitP (toast_error
                 (or_else (response_message error) "Failed to delete landlord")))
    (setState (setIsDeleting false) ;;;
     setState (setLandlordToDelete None)).

Definition handleDelete (adapter : Adapter) (landlordsOf : Decoder)
  : Task State unit :=
  λ s b,
    match landlordToDelete s with
    | Some id =>
        if truthy id
        then deleteSelected adapter landlordsOf id s b
        else (Fulfilled tt, s, b)
    | None => (Fulfilled tt, s, b)
    end.

(** The table body starts with [landlords.map(...)], which throws when
    [landlords] is undefined: then the page renders nothing. *)
Definition rendersTable (s : State) : bool :=
  match landlords s with
  | Some _ => true
  | None => false
  end.

(** [{landlords.length === 0 && !loading && (<tr>No landlords found.</tr>)}],
    reached only when the rows before it were rendered. *)
Definition showsEmptyRow (s : State) : bool :=
  match landlords s with
  | Some l => (length l =? 0) && negb (loading s)
  | None => false
  end.

End LandlordsPage.

(** The request a delete of the landlord with the given id goes out as. *)
Definition deleteRequest (id : string) (b : Browser) : Config.t :=
  requestInterceptor (mkConfig DELETE ("/landlords/" +:+ id) NoData None) b.

(** The request the list of landlords is fetched with. *)
Definition listRequest (b : Browser) : Config.t :=
  requestInterceptor (mkConfig GET "/landlords" NoData None) b.

(** ** pages/StaffDashboard.tsx *)

Module StaffDashboardPage.

Record Summary := mkSummary {
  totalTenants : Z;
  totalVacantUnits : Z;
  openMaintenanceTickets : Z;
  pendingLeases : Z
}.

(** [response.data.data.summary] as far as it is read: two counters, each
    of which may be missing. *)
Record SummaryData := mkData {
  dataTotalTenants : option Z;
  dataTotalVacantUnits : option Z
}.

(** How [response.data.data.summary] evaluates on a response; nothing when
    it is undefined, in which case reading a counter throws. *)
Definition Decoder : Type := Response.t → option SummaryData.

(** [x || 0] on a counter: a missing value gives 0 (and 0 gives 0). *)
Definition orZero (x : option Z) : Z :=
  match x with
  | Some n => n
  | None => 0%Z
  end.

(** [[
const fetchSummary = async () => {
  try {
    const response = await api.get('/reports/dashboard/summary');
    const data = response.data.data.summary;
    setSummary({
        totalTenants: data.totalTenants || 0,
        totalVacantUnits: data.totalVacantUnits || 0,
        openMaintenanceTickets: 5,
        pendingLeases: 2
    });
  } catch (error) {
    console.error('Failed to fetch staff dashboard summary', error);
    setSummary({ totalTenants: 12, totalVacantUnits: 3,
                 openMaintenanceTickets: 5, pendingLeases: 2 });
  }
};
]] *)
Definition fetchSummary (adapter : Adapter) (summaryOf : Decoder)
  : Task (option Summary) unit :=
  tryCatch
    (let+ response := awaitP (api_get adapter "/reports/dashboard/summary") in
     match summaryOf response with
     | Some data =>
         setState (λ _, Some (mkSummary (orZero (dataTotalTenants data))
                                        (orZero (dataTotalVacantUnits data))
                                        5 2))
     | None => throw accessError
     end)
    (λ error,
       awaitP (console_error "Failed to fetch staff dashboard summary" error) ;;;
       setState (λ _, Some (mkSummary 12 3 5 2))).

(** [if (!summary) return null;] and otherwise the four cards, by title. *)
Definition cards (summary : option Summary) : option (list (string * Z)) :=
  match summary with
  | None => None
  | Some sm =>
      Some [ ("Open Maintenance", openMaintenanceTickets sm);
             ("Vacant Units", totalVacantUnits sm);
             ("Active Tenants", totalTenants sm);
             ("Pending Leases", pendingLeases sm) ]
  end.

End StaffDashboardPage.

(** The request the staff summary is fetched with. *)
Definition summaryRequest (b : Browser) : Config.t :=
  requestInterceptor
    (mkConfig GET "/reports/dashboard/summary" NoData None) b.

(** The three components of what a handler leaves behind. *)
Definition outcomeOf {S A} (x : Settled A * S * Browser) : Settled A :=
  fst (fst x).
Definition stateOf {S A} (x : Settled A * S * Browser) : S := snd (fst x).
Definition browserOf {S A} (x : Settled A * S * Browser) : Browser := snd x.

(** What the response interceptor leaves of the browser when it rejects. *)
Definition afterRejection (error : JsError) (b : Browser) : Browser :=
  if is401 error then cleared b else b.

(** The effects of the 401 branch, or none. *)
Definition rejectionEffects (error : JsError) : list Effect :=
  if is401 error
  then [RemoveItem "token"; RemoveItem "user"; AssignHref "/login"]
  else [].

(** Sample landlords and a backend that holds them. *)
Definition ade : Landlord.t :=
  Landlord.mk "l-1" "Ade Bello" "ade@example.com" (Some "0801") None (Some 2).

Definition bisi : Landlord.t :=
  Landlord.mk "l-2" "Bisi Cole" "bisi@example.com" None (Some "0802") None.

Definition landlordsOnFile : LandlordsPage.Decoder := λ _, Some [bisi].

Definition noLandlordsField : LandlordsPage.Decoder := λ _, None.

(** The page showing ade and bisi, with ade picked for deletion. *)
Definition adePicked : LandlordsPage.State :=
  LandlordsPage.mkState (Some [ade; bisi]) false false false None true
                        (Some "l-1")
                        false.

(** A backend that accepts deletions and answers everything else with
    [{ data: {} }]. *)
Definition deletesThenListsNothing : Adapter :=
  λ config,
    match Config.method config with
    | DELETE => Responded (Response.mk 204 OpaqueBody)
    | _ => Responded (Response.mk 200 DataBody)
    end.

(** A backend that accepts deletions and then refuses to list. *)
Definition deletesThenFails : Adapter :=
  λ config,
    match Config.method config with
    | DELETE => Responded (Response.mk 204 OpaqueBody)
    | _ => Responded (Response.mk 500 (MessageBody "boom"))
    end.

(** Sample invoices and units. *)
Definition rentJune : Invoice.t :=
  Invoice.mk "9f1c2b7e-aaaa-bbbb-cccc-000000000001" (Some "Tunde") 250000
             "2025-06-30" "PENDING" "RENT".

Definition rentMay : Invoice.t :=
  Invoice.mk "11111111-aaaa-bbbb-cccc-000000000002" None 250000
             "2025-05-31" "PAID" "RENT".

Definition flatA : Unit.t := Unit.mk "unit-a" "Flat A" "VACANT".
Definition flatB : Unit.t := Unit.mk "unit-b" "Flat B" "MAINTENANCE".

(** * Properties *)

(** ** The session store *)

Section Storage.
Implicit Types (b : Browser) (key value : string).

Lemma getItem_setItem_eq b key value :
  getItem key (setItem key value b) = Some value.
Proof. unfold getItem, setItem; simpl. apply lookup_insert_eq. Qed.

Lemma getItem_setItem_ne b key key' value :
  key ≠ key' → getItem key' (setItem key value b) = getItem key' b.
Proof. intros Hne. unfold getItem, setItem; simpl. by apply lookup_insert_ne. Qed.

Lemma getItem_removeItem_eq b key :
  getItem key (removeItem key b) = None.
Proof. unfold getItem, removeItem; simpl. apply lookup_delete_eq. Qed.

Lemma getItem_removeItem_ne b key key' :
  key ≠ key' → getItem key' (removeItem key b) = getItem key' b.
Proof. intros Hne. unfold getItem, removeItem; simpl. by apply lookup_delete_ne. Qed.

Lemma getItem_log b e key : getItem key (log e b) = getItem key b.
Proof. reflexivity. Qed.

Lemma getItem_assignHref b to key : getItem key (assignHref to b) = getItem key b.
Proof. reflexivity. Qed.

Lemma getItem_setAuth b a key : getItem key (setAuth a b) = getItem key b.
Proof. reflexivity. Qed.
End Storage.

(** ** The request interceptor *)

(** On an arbitrary config the interceptor overwrites [Authorization] when
    the stored token is truthy and otherwise returns the config as it came. *)
Lemma requestInterceptor_authorization (config : Config.t) (b : Browser) :
  authorization (requestInterceptor config b) =
    match getItem "token" b with
    | Some tok => if truthy tok then Some ("Bearer " +:+ tok)
                  else authorization config
    | None => authorization config
    end.
Proof.
  unfold requestInterceptor, authorization.
  destruct (getItem "token" b) as [tok|]; [|done].
  destruct (truthy tok); [|done].
  simpl. apply lookup_insert_eq.
Qed.

Lemma requestInterceptor_other_headers (config : Config.t) (b : Browser)
    (name : string) :
  name ≠ "Authorization" →
  Config.headers (requestInterceptor config b) !! name
  = Config.headers config !! name.
Proof.
  intros Hne. unfold requestInterceptor.
  destruct (getItem "token" b) as [tok|]; [|done].
  destruct (truthy tok); [|done].
  simpl. by apply lookup_insert_ne.
Qed.

(** No call site supplies an [Authorization] header of its own. *)
Lemma mkConfig_unauthenticated m url data ct :
  authorization (mkConfig m url data ct) = None.
Proof. destruct ct; reflexivity. Qed.

(** Every request starts by logging the config the request interceptor
    produced from the storage as it is at that moment. *)
Lemma dispatch_sends (adapter : Adapter) (config : Config.t) (b : Browser) :
  ∃ fx, effects (snd (dispatch adapter config b))
        = effects b ++ Send (requestInterceptor config b) :: fx.
Proof.
  unfold dispatch.
  destruct (settle _) as [r|error].
  - by exists [].
  - unfold onRejected, await, exec, resolve, reject.
    destruct (is401 _); simpl.
    + eexists. rewrite <- !app_assoc. reflexivity.
    + by exists [].
Qed.

(** The request as it leaves a call site of the client. *)
Lemma api_request_sends
    (adapter : Adapter) (m : Method) (url : string) (data : Payload)
    (contentType : option string) (b : Browser) :
  ∃ fx,
    effects (snd (api_request adapter m url data contentType b))
      = effects b
        ++ Send (requestInterceptor (mkConfig m url data contentType) b) :: fx.
Proof. apply dispatch_sends. Qed.

Lemma api_request_authorization
    (m : Method) (url : string) (data : Payload)
    (contentType : option string) (b : Browser) :
  authorization (requestInterceptor (mkConfig m url data contentType) b)
  = match getItem "token" b with
    | Some tok => if truthy tok then Some ("Bearer " +:+ tok) else None
    | None => None
    end.
Proof.
  rewrite requestInterceptor_authorization, mkConfig_unauthenticated.
  reflexivity.
Qed.

(** C1: every request issued through the client ([api.get], [api.post],
    [api.patch], [api.delete], with or without a content type) leaves with the
    config the request interceptor computed from the session store as it is
    at call time: when the stored token is a non-empty string the
    [Authorization] header is [Bearer <token>]; when no token is stored (or
    the stored value is the empty string, which [if (token)] treats as
    absent) the request has no [Authorization] header. *)
Theorem request_carries_bearer_iff_token_stored
    (adapter : Adapter) (m : Method) (url : string) (data : Payload)
    (contentType : option string) (b : Browser) :
  ∃ sent fx,
    effects (snd (api_request adapter m url data contentType b))
      = effects b ++ Send sent :: fx
    ∧ sent = requestInterceptor (mkConfig m url data contentType) b
    ∧ authorization sent =
        match getItem "token" b with
        | Some tok => if truthy tok then Some ("Bearer " +:+ tok) else None
        | None => None
        end.
Proof.
  destruct (api_request_sends adapter m url data contentType b) as [fx Hfx].
  exists (requestInterceptor (mkConfig m url data contentType) b), fx.
  split; [exact Hfx|]. split; [reflexivity|].
  apply api_request_authorization.
Qed.

(** ** The response interceptor *)

Lemma is401_true (error : JsError) (r : Response.t) :
  response_of error = Some r → Response.status r = 401%Z → is401 error = true.
Proof. intros Hr Hs. unfold is401. rewrite Hr, Hs. reflexivity. Qed.

Lemma is401_false (error : JsError) :
  (∀ r, response_of error = Some r → Response.status r ≠ 401%Z) →
  is401 error = false.
Proof.
  intros H. unfold is401. destruct (response_of error) as [r|]; [|done].
  apply Z.eqb_neq. by apply H.
Qed.

Lemma onRejected_401 (error : JsError) (b : Browser) :
  is401 error = true →
  onRejected error b
  = (Rejected error,
     assignHref "/login" (removeItem "user" (removeItem "token" b))).
Proof. intros H. unfold onRejected. rewrite H. reflexivity. Qed.

Lemma onRejected_other (error : JsError) (b : Browser) :
  is401 error = false → onRejected error b = (Rejected error, b).
Proof. intros H. unfold onRejected. rewrite H. reflexivity. Qed.

(** C2: when an error whose response has status 401 reaches the response
    interceptor, the handler removes the stored token and the stored user,
    assigns the login route to [window.location.href] (a full navigation), in
    that order, and then rejects with the very same error. *)
Theorem unauthorized_clears_session_and_redirects
    (error : JsError) (r : Response.t) (b : Browser) :
  response_of error = Some r →
  Response.status r = 401%Z →
  fst (onRejected error b) = Rejected error
  ∧ getItem "token" (snd (onRejected error b)) = None
  ∧ getItem "user" (snd (onRejected error b)) = None
  ∧ href (snd (onRejected error b)) = "/login"
  ∧ effects (snd (onRejected error b))
    = effects b ++ [RemoveItem "token"; RemoveItem "user"; AssignHref "/login"].
Proof.
  intros Hr Hs. rewrite (onRejected_401 error b (is401_true error r Hr Hs)).
  simpl. repeat split.
  - rewrite getItem_assignHref, getItem_removeItem_ne by done.
    apply getItem_removeItem_eq.
  - rewrite getItem_assignHref. apply getItem_removeItem_eq.
  - rewrite <- !app_assoc. reflexivity.
Qed.

(** C5: an error that is not a response with status 401 (another status, or
    no response at all) is rejected unchanged and the browser state (storage,
    location, provider state, effect log) is exactly what it was. *)
Theorem other_errors_pass_through (error : JsError) (b : Browser) :
  (∀ r, response_of error = Some r → Response.status r ≠ 401%Z) →
  onRejected error b = (Rejected error, b).
Proof. intros H. apply onRejected_other, is401_false, H. Qed.

(** An error with no response at all is a special case. *)
Lemma network_failure_passes_through (msg : string) (b : Browser) :
  onRejected (AxiosError msg None) b = (Rejected (AxiosError msg None), b).
Proof. reflexivity. Qed.

(** Seen from a call site: a failed request that is not a 401 only adds the
    [Send] of the request itself. *)
Lemma dispatch_failure_passes_through
    (adapter : Adapter) (config : Config.t) (b : Browser) (error : JsError) :
  settle (adapter (requestInterceptor config b)) = Rejected error →
  is401 error = false →
  dispatch adapter config b
  = (Rejected error, log (Send (requestInterceptor config b)) b).
Proof.
  intros Hs He. unfold dispatch. rewrite Hs. by apply onRejected_other.
Qed.

(** ** The route guard *)

Lemma shows_Navigate s to r : shows s (Navigate to r) = false.
Proof. reflexivity. Qed.

(** C6: the guard is a function of [isAuthenticated] and the wrapped subtree
    alone. When [isAuthenticated] is false its output is the redirect to
    "/login" (with replace) whatever the subtree is, and shows no screen;
    when it is true its output is the fragment around the subtree, which
    reaches the document as the subtree itself. *)
Theorem route_guard_redirects_or_renders_children (children : Node) :
  ProtectedRoute false children = Navigate "/login" true
  ∧ (∀ s, shows s (ProtectedRoute false children) = false)
  ∧ ProtectedRoute true children = Fragment [children]
  ∧ dom (ProtectedRoute true children) = dom children
  ∧ (∀ s, shows s (ProtectedRoute true children) = shows s children).
Proof.
  repeat split.
  - simpl. apply app_nil_r.
  - intros s. simpl. apply orb_false_r.
Qed.

Lemma matchRoutes_In pathname routes r c :
  matchRoutes pathname routes = Some (r, c) → In r routes.
Proof.
  induction routes as [|r0 routes IH]; simpl; [done|].
  unfold matchRoute.
  destruct (stripPrefix (path r0) pathname) as [rest|]; [|by right; apply IH].
  destruct (find (matchChild rest) (children r0)).
  - intros [= <- _]. by left.
  - destruct (isEmpty rest).
    + intros [= <- _]. by left.
    + right. by apply IH.
Qed.

(** Visiting any location served by the "/dashboard" route without a session
    renders the redirect, and the login route renders the login screen. *)
Lemma protected_routes_redirect_when_logged_out
    (a : AuthState) (pathname : string) (r : Route) (c : option ChildRoute) :
  isAuthenticated a = false →
  matchRoutes pathname AppRoutes = Some (r, c) →
  path r = "/dashboard" →
  renderRoutes a pathname = Navigate "/login" true
  ∧ renderRoutes a "/login" = Page Login.
Proof.
  intros Ha Hm Hp. split; [|reflexivity].
  unfold renderRoutes. rewrite Hm.
  apply matchRoutes_In in Hm. simpl in Hm.
  destruct Hm as [<-|[<-|[<-|[]]]]; try discriminate Hp.
  simpl. rewrite Ha. reflexivity.
Qed.

(** ** Role gating *)

Lemma roleIs_Some (r : string) (u : User.t) :
  roleIs r (Some u) = true ↔ User.role u = r.
Proof. simpl. apply String.eqb_eq. Qed.

Lemma roleIs_Some_false (r : string) (u : User.t) :
  roleIs r (Some u) = false ↔ User.role u ≠ r.
Proof. simpl. apply String.eqb_neq. Qed.

Lemma Sidebar_labels (user : option User.t) (pathname : string) :
  linkLabels (Sidebar user pathname)
  = commonLabels ++ (if roleIs "ADMIN" user then ["Account Management"] else []).
Proof. unfold Sidebar. destruct (roleIs "ADMIN" user); reflexivity. Qed.

Lemma Sidebar_account_management (user : option User.t) (pathname : string) :
  In "Account Management" (linkLabels (Sidebar user pathname))
  ↔ roleIs "ADMIN" user = true.
Proof.
  rewrite Sidebar_labels. destruct (roleIs "ADMIN" user); simpl.
  - split; [done|]. intros _. do 8 right. by left.
  - split; [|done]. intros H.
    repeat (destruct H as [H|H]; [discriminate H|]). destruct H.
Qed.

Lemma Dashboard_staff (user : option User.t) :
  Dashboard user = Page StaffDashboard ↔ roleIs "STAFF" user = true.
Proof. unfold Dashboard. destruct (roleIs "STAFF" user); split; done. Qed.

Lemma Dashboard_admin (user : option User.t) :
  Dashboard user = Page AdminDashboard ↔ roleIs "STAFF" user = false.
Proof. unfold Dashboard. destruct (roleIs "STAFF" user); split; done. Qed.

(** C7: for a logged-in user whose role is one of the two roles of the data
    model, the sidebar lists the eight common entries in order, followed by
    "Account Management" exactly when the role is ADMIN, and the Dashboard
    component renders the staff variant for STAFF and the admin variant for
    ADMIN. *)
Theorem navigation_and_dashboard_follow_role (u : User.t) (pathname : string) :
  User.role u = "ADMIN" ∨ User.role u = "STAFF" →
  linkLabels (Sidebar (Some u) pathname)
    = commonLabels
      ++ (if String.eqb (User.role u) "ADMIN" then ["Account Management"] else [])
  ∧ (In "Account Management" (linkLabels (Sidebar (Some u) pathname))
     ↔ User.role u = "ADMIN")
  ∧ (Dashboard (Some u) = Page StaffDashboard ↔ User.role u = "STAFF")
  ∧ (Dashboard (Some u) = Page AdminDashboard ↔ User.role u = "ADMIN").
Proof.
  intros Hrole. split; [apply Sidebar_labels|].
  split; [by rewrite Sidebar_account_management, roleIs_Some|].
  split; [by rewrite Dashboard_staff, roleIs_Some|].
  rewrite Dashboard_admin, roleIs_Some_false.
  destruct Hrole as [H|H]; rewrite H; split; done.
Qed.

(** C9: the admin variant is the fall-through branch of the Dashboard
    component. It is rendered when there is no user and for every role other
    than 'STAFF'; the staff variant is rendered only for a user whose role is
    'STAFF'. *)
Theorem dashboard_defaults_to_admin (user : option User.t) :
  (user = None ∨ (∃ u, user = Some u ∧ User.role u ≠ "STAFF")) →
  Dashboard user = Page AdminDashboard
  ∧ (∀ user', Dashboard user' = Page StaffDashboard
              ↔ ∃ u, user' = Some u ∧ User.role u = "STAFF").
Proof.
  intros H. split.
  - apply Dashboard_admin. destruct H as [->|(u & -> & Hne)]; [done|].
    by apply roleIs_Some_false.
  - intros user'. rewrite Dashboard_staff. destruct user' as [u|].
    + rewrite roleIs_Some. split; [by exists u|]. by intros (u' & [= <-] & Hr).
    + simpl. split; [done|]. by intros (u' & [=] & _).
Qed.

(** ** Routes exist independently of the role *)

Lemma account_management_route_matches :
  ∃ r, In r AppRoutes
       ∧ path r = "/dashboard"
       ∧ element r = JProtectedRoute JDashboardLayout
       ∧ matchRoutes "/dashboard/account-management" AppRoutes
         = Some (r, Some (PathRoute "account-management" (JPage AccountManagement))).
Proof.
  eexists. split; [right; left; reflexivity|].
  split; [reflexivity|]. split; reflexivity.
Qed.

(** Whoever is authenticated gets the page: the role is never consulted on
    the way to the outlet. *)
Lemma account_management_rendered_when_authenticated (a : AuthState) :
  isAuthenticated a = true →
  renderRoutes a "/dashboard/account-management"
  = Fragment [Layout (Sidebar (user a) "/dashboard/account-management")
                     [Page Navbar; Page AccountManagement]].
Proof.
  intros Ha. unfold renderRoutes.
  destruct account_management_route_matches as (r & _ & _ & He & ->).
  rewrite He. simpl. rewrite Ha. reflexivity.
Qed.

(** C10: role gating removes the navigation entry, not the route. The
    account-management route is part of the route table whatever the session
    is, its guard looks at [isAuthenticated] only, and so an authenticated
    STAFF user who goes straight to /dashboard/account-management gets the
    layout with the AccountManagement page in its outlet, while the sidebar
    of that very layout has no "Account Management" link. *)
Theorem staff_reaches_account_management_by_url (a : AuthState) (u : User.t) :
  isAuthenticated a = true →
  user a = Some u →
  User.role u = "STAFF" →
  renderRoutes a "/dashboard/account-management"
    = Fragment [Layout (Sidebar (Some u) "/dashboard/account-management")
                       [Page Navbar; Page AccountManagement]]
  ∧ shows AccountManagement (renderRoutes a "/dashboard/account-management")
    = true
  ∧ ¬ In "Account Management"
        (linkLabels (Sidebar (Some u) "/dashboard/account-management")).
Proof.
  intros Ha Hu Hr.
  rewrite (account_management_rendered_when_authenticated a Ha), Hu.
  split; [reflexivity|]. split.
  - simpl. rewrite orb_false_r. apply orb_true_r.
  - rewrite Sidebar_account_management, roleIs_Some, Hr. discriminate.
Qed.

(** ** What each operation does to the browser *)

Ltac unfold_ops :=
  unfold stored, held, cleared, loginFailure, login, logout, navigate,
    assignHref, removeItem, setItem, setAuth, getItem, log;
  cbn [localStorage href auth effects token user].

Ltac storage_lookup :=
  unfold_ops;
  repeat first
    [ rewrite lookup_insert_eq
    | rewrite lookup_delete_eq
    | rewrite lookup_insert_ne by done
    | rewrite lookup_delete_ne by done ];
  rewrite <- ?app_assoc; cbn [app];
  try reflexivity.

Section Operations.
Implicit Types (b : Browser) (e : Effect) (error : JsError).

Lemma stored_log e b : stored (log e b) = stored b.
Proof. reflexivity. Qed.

Lemma held_log e b : held (log e b) = held b.
Proof. reflexivity. Qed.

Lemma stored_cleared b : stored (cleared b) = (None, None).
Proof. storage_lookup. Qed.

Lemma held_cleared b : held (cleared b) = held b.
Proof. reflexivity. Qed.

Lemma href_cleared b : href (cleared b) = "/login".
Proof. reflexivity. Qed.

Lemma effects_cleared b :
  effects (cleared b)
  = effects b ++ [RemoveItem "token"; RemoveItem "user"; AssignHref "/login"].
Proof. storage_lookup. Qed.

Lemma stored_login tok usr b :
  stored (login tok usr b)
  = (Some (stringOf tok), Some (stringOf (stringifyUser usr))).
Proof. storage_lookup. Qed.

Lemma held_login tok usr b : held (login tok usr b) = (tok, usr).
Proof. reflexivity. Qed.

Lemma effects_login tok usr b :
  effects (login tok usr b)
  = effects b ++ [CallLogin tok usr; SetItem "token" (stringOf tok);
                  SetItem "user" (stringOf (stringifyUser usr))].
Proof. storage_lookup. Qed.

Lemma stored_logout b : stored (logout b) = (None, None).
Proof. storage_lookup. Qed.

Lemma held_logout b : held (logout b) = (None, None).
Proof. reflexivity. Qed.

Lemma effects_logout b :
  effects (logout b)
  = effects b ++ [CallLogout; RemoveItem "token"; RemoveItem "user"].
Proof. storage_lookup. Qed.

Lemma stored_loginFailure error b : stored (loginFailure error b) = stored b.
Proof. reflexivity. Qed.

Lemma effects_loginFailure error b :
  effects (loginFailure error b)
  = effects b ++ [ConsoleError "Login failed" error;
                  ToastError (or_else (response_message error) "Login failed")].
Proof. storage_lookup. Qed.

(** The pipeline, outcome by outcome. *)
Lemma dispatch_eq (adapter : Adapter) (config : Config.t) b :
  dispatch adapter config b
  = match settle (adapter (requestInterceptor config b)) with
    | Fulfilled r =>
        (Fulfilled r, log (Send (requestInterceptor config b)) b)
    | Rejected error =>
        (Rejected error,
         if is401 error
         then cleared (log (Send (requestInterceptor config b)) b)
         else log (Send (requestInterceptor config b)) b)
    end.
Proof.
  unfold dispatch. destruct (settle _) as [r|error]; [reflexivity|].
  destruct (is401 error) eqn:He.
  - by apply onRejected_401.
  - by apply onRejected_other.
Qed.

(** The login form, outcome by outcome; the promise of [onSubmit] never
    rejects. *)
Lemma onSubmit_eq (adapter : Adapter) (data : LoginFormData) b :
  onSubmit adapter data b
  = (Fulfilled tt,
     match settle (adapter (loginRequest data b)) with
     | Fulfilled r =>
         match body_data (Response.data r) with
         | Some usr =>
             navigate "/dashboard"
               (log (ToastSuccess "Welcome back!")
                  (login (body_token (Response.data r)) usr
                     (log (Send (loginRequest data b)) b)))
         | None => loginFailure destructureError
                     (log (Send (loginRequest data b)) b)
         end
     | Rejected error =>
         loginFailure error
           (if is401 error
            then cleared (log (Send (loginRequest data b)) b)
            else log (Send (loginRequest data b)) b)
     end).
Proof.
  unfold onSubmit, try_catch, await, api_post, api_request.
  rewrite dispatch_eq. fold (loginRequest data b).
  destruct (settle _) as [r|error]; [|reflexivity].
  destruct (body_data (Response.data r)); reflexivity.
Qed.
End Operations.

(** ** Login calls in the effect log *)

Lemma lastLogin_app (fx gx : list Effect) :
  lastLogin (fx ++ gx)
  = match lastLogin gx with
    | Some p => Some p
    | None => lastLogin fx
    end.
Proof.
  induction fx as [|e fx IH]; simpl.
  - by destruct (lastLogin gx).
  - rewrite IH. by destruct (lastLogin gx).
Qed.

Lemma lastLogin_None (gx : list Effect) :
  lastLogin gx = None ↔ List.filter isCallLogin gx = [].
Proof.
  induction gx as [|e gx IH]; simpl; [done|].
  destruct (lastLogin gx) as [p|].
  - split; [done|]. intros H. destruct (isCallLogin e); [done|].
    apply IH in H. done.
  - destruct e; simpl; split; try done; by apply IH.
Qed.

Lemma loginCalls_app (b b' : Browser) (gx : list Effect) :
  effects b' = effects b ++ gx →
  loginCalls b' = loginCalls b + length (List.filter isCallLogin gx).
Proof.
  intros H. unfold loginCalls. by rewrite H, List.filter_app, length_app.
Qed.

(** ** Footprints *)

Lemma Footprint_loginCalls_le (b b' : Browser) :
  Footprint b b' → loginCalls b ≤ loginCalls b'.
Proof.
  intros [gx He _ _ _|gx tok usr He _ _ _];
    rewrite (loginCalls_app _ _ _ He); lia.
Qed.

Lemma Footprint_stays_logged_out (b b' : Browser) :
  Footprint b b' →
  loginCalls b' = loginCalls b →
  getItem "token" b = None →
  getItem "token" b' = None.
Proof.
  intros [gx He Hf Hs _|gx tok usr He Hl _ _] Hc Ht.
  - unfold stored in Hs. destruct Hs as [[= -> _]|[= -> _]]; done.
  - rewrite (loginCalls_app _ _ _ He) in Hc.
    destruct (List.filter isCallLogin gx) eqn:Hf.
    + apply lastLogin_None in Hf. congruence.
    + simpl in Hc. lia.
Qed.

(** An operation that logs no [login] call and keeps or empties each pair
    keeps the pairing. *)
Lemma paired_kept (b b' : Browser) (gx : list Effect) :
  effects b' = effects b ++ gx →
  List.filter isCallLogin gx = [] →
  stored b' = stored b ∨ stored b' = (None, None) →
  held b' = held b ∨ held b' = (None, None) →
  paired b → paired b'.
Proof.
  intros He Hf Hs Hh [Ps Ph]. split.
  - destruct Hs as [-> | ->]; [|by left].
    destruct Ps as [?|(tok & usr & Hl & ?)]; [by left|right].
    exists tok, usr. split; [|done].
    apply lastLogin_None in Hf. by rewrite He, lastLogin_app, Hf.
  - destruct Hh as [-> | ->]; [|by left].
    destruct Ph as [?|(tok & usr & Hl & ?)]; [by left|right].
    exists tok, usr. split; [|done].
    apply lastLogin_None in Hf. by rewrite He, lastLogin_app, Hf.
Qed.

(** A [login] call with both a token and a user establishes the pairing. *)
Lemma paired_login (b b' : Browser) (gx : list Effect)
    (tok : string) (usr : User.t) :
  effects b' = effects b ++ gx →
  lastLogin gx = Some (Some tok, Some usr) →
  stored b' = (Some tok, Some (serializeUser usr)) →
  held b' = (Some tok, Some usr) →
  paired b'.
Proof.
  intros He Hl Hs Hh.
  split; right; exists tok, usr; (split; [|done]);
    by rewrite He, lastLogin_app, Hl.
Qed.

Lemma Footprint_log (e : Effect) (b : Browser) :
  isCallLogin e = false → Footprint b (log e b).
Proof.
  intros He. apply (KeepsOrClears _ _ [e]); [done| |by left..].
  simpl. by rewrite He.
Qed.

Lemma Footprint_cleared (b : Browser) : Footprint b (cleared b).
Proof.
  apply (KeepsOrClears _ _ [RemoveItem "token"; RemoveItem "user";
                            AssignHref "/login"]).
  - apply effects_cleared.
  - reflexivity.
  - right. apply stored_cleared.
  - by left.
Qed.

Lemma Footprint_dispatch (adapter : Adapter) (config : Config.t) (b : Browser) :
  Footprint b (snd (dispatch adapter config b)).
Proof.
  rewrite dispatch_eq.
  destruct (settle _) as [r|error]; simpl.
  - by apply Footprint_log.
  - destruct (is401 error).
    + apply (KeepsOrClears _ _ [Send (requestInterceptor config b);
                                RemoveItem "token"; RemoveItem "user";
                                AssignHref "/login"]).
      * rewrite effects_cleared. storage_lookup.
      * reflexivity.
      * right. apply stored_cleared.
      * by left.
    + by apply Footprint_log.
Qed.

Lemma Footprint_login (tok : option string) (usr : option User.t)
    (b : Browser) :
  Footprint b (login tok usr b).
Proof.
  apply (LogsIn _ _ [CallLogin tok usr; SetItem "token" (stringOf tok);
                     SetItem "user" (stringOf (stringifyUser usr))] tok usr).
  - apply effects_login.
  - reflexivity.
  - apply stored_login.
  - reflexivity.
Qed.

Lemma Footprint_logout (b : Browser) : Footprint b (logout b).
Proof.
  apply (KeepsOrClears _ _ [CallLogout; RemoveItem "token"; RemoveItem "user"]).
  - apply effects_logout.
  - reflexivity.
  - right. apply stored_logout.
  - right. reflexivity.
Qed.

Lemma Footprint_onSubmit (adapter : Adapter) (data : LoginFormData) (b : Browser) :
  Footprint b (snd (onSubmit adapter data b)).
Proof.
  rewrite onSubmit_eq. cbn [snd].
  destruct (settle _) as [r|error].
  - destruct (body_data (Response.data r)) as [usr|].
    + apply (LogsIn _ _ [Send (loginRequest data b);
                         CallLogin (body_token (Response.data r)) usr;
                         SetItem "token" (stringOf (body_token (Response.data r)));
                         SetItem "user" (stringOf (stringifyUser usr));
                         ToastSuccess "Welcome back!";
                         RouterNavigate "/dashboard"]
                        (body_token (Response.data r)) usr).
      * storage_lookup.
      * reflexivity.
      * storage_lookup.
      * reflexivity.
    + apply (KeepsOrClears _ _ (Send (loginRequest data b)
               :: [ConsoleError "Login failed" destructureError;
                   ToastError "Login failed"]));
        [storage_lookup|reflexivity|by left..].
  - destruct (is401 error).
    + apply (KeepsOrClears _ _
               [Send (loginRequest data b);
                RemoveItem "token"; RemoveItem "user"; AssignHref "/login";
                ConsoleError "Login failed" error;
                ToastError (or_else (response_message error) "Login failed")]).
      * storage_lookup.
      * reflexivity.
      * right. rewrite stored_loginFailure. apply stored_cleared.
      * by left.
    + apply (KeepsOrClears _ _
               [Send (loginRequest data b);
                ConsoleError "Login failed" error;
                ToastError (or_else (response_message error) "Login failed")]);
        [storage_lookup|reflexivity|by left..].
Qed.

Lemma Footprint_step (b : Browser) (ev : Event) : Footprint b (step b ev).
Proof.
  destruct ev as [adapter m url data ct|adapter data|tok usr|]; simpl.
  - apply Footprint_dispatch.
  - apply Footprint_onSubmit.
  - apply Footprint_login.
  - apply Footprint_logout.
Qed.

Lemma run_cons (b : Browser) (ev : Event) (evs : list Event) :
  run b (ev :: evs) = run (step b ev) evs.
Proof. reflexivity. Qed.

Lemma run_loginCalls_le (evs : list Event) (b : Browser) :
  loginCalls b ≤ loginCalls (run b evs).
Proof.
  revert b. induction evs as [|ev evs IH]; intros b; [done|].
  rewrite run_cons. etrans; [|apply IH].
  apply Footprint_loginCalls_le, Footprint_step.
Qed.

Lemma run_stays_logged_out (evs : list Event) (b : Browser) :
  loginCalls (run b evs) = loginCalls b →
  getItem "token" b = None →
  getItem "token" (run b evs) = None.
Proof.
  revert b. induction evs as [|ev evs IH]; intros b Hc Ht; [done|].
  rewrite run_cons in *.
  pose proof (Footprint_loginCalls_le _ _ (Footprint_step b ev)) as H1.
  pose proof (run_loginCalls_le evs (step b ev)) as H2.
  apply IH; [lia|].
  apply (Footprint_stays_logged_out b); [apply Footprint_step|lia|done].
Qed.

Lemma settle_Fulfilled (reply : Reply) (r : Response.t) :
  settle reply = Fulfilled r →
  reply = Responded r ∧ validateStatus (Response.status r) = true.
Proof.
  destruct reply as [r'|msg]; simpl; [|done].
  destruct (validateStatus (Response.status r')) eqn:Hv; [|done].
  by intros [= <-].
Qed.

Lemma paired_dispatch (adapter : Adapter) (config : Config.t) (b : Browser) :
  paired b → paired (snd (dispatch adapter config b)).
Proof.
  rewrite dispatch_eq.
  destruct (settle _) as [r|error]; simpl.
  - apply (paired_kept _ _ [Send (requestInterceptor config b)]);
      [done|done|by left..].
  - destruct (is401 error).
    + apply (paired_kept _ _ [Send (requestInterceptor config b);
                              RemoveItem "token"; RemoveItem "user";
                              AssignHref "/login"]).
      * rewrite effects_cleared. storage_lookup.
      * reflexivity.
      * right. apply stored_cleared.
      * by left.
    + apply (paired_kept _ _ [Send (requestInterceptor config b)]);
        [done|done|by left..].
Qed.

Lemma paired_onSubmit (adapter : Adapter) (data : LoginFormData) (b : Browser) :
  keepsShape adapter → paired b → paired (snd (onSubmit adapter data b)).
Proof.
  intros Hshape. rewrite onSubmit_eq. cbn [snd].
  destruct (settle _) as [r|error] eqn:Hs.
  - apply settle_Fulfilled in Hs as [Hr Hv].
    pose proof (Hshape _ _ Hr Hv) as Hc. unfold completeEnvelope in Hc.
    destruct (body_data (Response.data r)) as [usr|].
    + destruct Hc as [[tok Ht] [u ->]]. rewrite Ht. intros _.
      apply (paired_login b _ [Send (loginRequest data b);
                               CallLogin (Some tok) (Some u);
                               SetItem "token" tok;
                               SetItem "user" (serializeUser u);
                               ToastSuccess "Welcome back!";
                               RouterNavigate "/dashboard"] tok u).
      * storage_lookup.
      * reflexivity.
      * storage_lookup.
      * reflexivity.
    + apply (paired_kept _ _ (Send (loginRequest data b)
               :: [ConsoleError "Login failed" destructureError;
                   ToastError "Login failed"]));
        [storage_lookup|reflexivity|by left..].
  - destruct (is401 error).
    + apply (paired_kept _ _
               [Send (loginRequest data b);
                RemoveItem "token"; RemoveItem "user"; AssignHref "/login";
                ConsoleError "Login failed" error;
                ToastError (or_else (response_message error) "Login failed")]).
      * storage_lookup.
      * reflexivity.
      * right. rewrite stored_loginFailure. apply stored_cleared.
      * by left.
    + apply (paired_kept _ _
               [Send (loginRequest data b);
                ConsoleError "Login failed" error;
                ToastError (or_else (response_message error) "Login failed")]);
        [storage_lookup|reflexivity|by left..].
Qed.

Lemma paired_step (b : Browser) (ev : Event) :
  wellShaped ev → paired b → paired (step b ev).
Proof.
  destruct ev as [adapter m url data ct|adapter data|tok usr|]; simpl.
  - intros _. apply paired_dispatch.
  - apply paired_onSubmit.
  - intros _ _.
    apply (paired_login b _ [CallLogin (Some tok) (Some usr);
                             SetItem "token" tok;
                             SetItem "user" (serializeUser usr)] tok usr).
    + apply effects_login.
    + reflexivity.
    + apply stored_login.
    + reflexivity.
  - intros _.
    apply (paired_kept _ _ [CallLogout; RemoveItem "token"; RemoveItem "user"]).
    + apply effects_logout.
    + reflexivity.
    + right. apply stored_logout.
    + right. reflexivity.
Qed.

Lemma run_paired (evs : list Event) (b : Browser) :
  Forall wellShaped evs → paired b → paired (run b evs).
Proof.
  revert b. induction evs as [|ev evs IH]; intros b Hevs Hb; [done|].
  apply Forall_cons in Hevs as [Hev Hevs].
  rewrite run_cons. apply IH; [exact Hevs|].
  by apply paired_step.
Qed.

Lemma paired_fresh : paired fresh.
Proof. split; by left. Qed.

Lemma paired_both_or_neither (b : Browser) :
  paired b →
  (getItem "token" b = None ↔ getItem "user" b = None)
  ∧ (token (auth b) = None ↔ user (auth b) = None).
Proof.
  unfold paired, stored, held.
  intros [[Hs|(tok & usr & _ & Hs)] [Hh|(tok' & usr' & _ & Hh)]];
    injection Hs as -> ->; injection Hh as -> ->; done.
Qed.

(** C3 (as amended): starting from a browser that never held a session,
    after any sequence of client requests (whatever the server answers, 401
    included), login form submissions, [login] calls and [logout] calls in
    which every accepted answer to a login submission keeps to the fixed
    shape (a token, and a user inside [data]), the session store holds either
    no token and no user, or the token and the serialized profile passed to
    the most recent [login] call; the provider's in-memory state likewise
    holds neither or both. In particular a token is held exactly when a user
    is. *)
Theorem token_and_user_set_and_cleared_together (evs : list Event) :
  Forall wellShaped evs →
  paired (run fresh evs)
  ∧ (getItem "token" (run fresh evs) = None
     ↔ getItem "user" (run fresh evs) = None)
  ∧ (token (auth (run fresh evs)) = None
     ↔ user (auth (run fresh evs)) = None).
Proof.
  intros Hevs.
  assert (H : paired (run fresh evs)) by (by apply run_paired, paired_fresh).
  split; [exact H|]. by apply paired_both_or_neither.
Qed.

(** C3 (as stated) fails: on a fresh browser the login form is submitted and
    the server answers 200 with [{ token: 't1', data: {} }]. The
    destructuring succeeds, [login] is called with the token and an undefined
    user, the success toast is raised and the dashboard is navigated to; the
    provider then holds a token without a user, and the 'user' entry of the
    store is not a profile. *)
Lemma login_answer_without_user_breaks_pairing :
  effects (run fresh [DoSubmit (answering 200 tokenOnly) credentials])
  = [Send (loginRequest credentials fresh); CallLogin (Some "t1") None;
     SetItem "token" "t1"; SetItem "user" "undefined";
     ToastSuccess "Welcome back!"; RouterNavigate "/dashboard"]
  ∧ held (run fresh [DoSubmit (answering 200 tokenOnly) credentials])
    = (Some "t1", None)
  ∧ ¬ (token (auth (run fresh [DoSubmit (answering 200 tokenOnly) credentials]))
       = None
       ↔ user (auth (run fresh [DoSubmit (answering 200 tokenOnly) credentials]))
         = None)
  ∧ ¬ paired (run fresh [DoSubmit (answering 200 tokenOnly) credentials]).
Proof.
  split; [reflexivity|]. split; [reflexivity|]. split.
  - intros [_ H]. by specialize (H eq_refl).
  - intros [_ [H|(tok & usr & _ & H)]]; discriminate H.
Qed.

Lemma token_and_user_set_and_cleared_together_witness :
  Forall wellShaped
    [DoSubmit (answering 200 (LoginBody "t0" alice)) credentials;
     DoRequest (answering 401 OpaqueBody) GET "/tenants" NoData None;
     DoLogin "t2" root; DoLogout]
  ∧ paired (run fresh
              [DoSubmit (answering 200 (LoginBody "t0" alice)) credentials;
               DoRequest (answering 401 OpaqueBody) GET "/tenants" NoData None;
               DoLogin "t2" root; DoLogout]).
Proof.
  assert (H : Forall wellShaped
                [DoSubmit (answering 200 (LoginBody "t0" alice)) credentials;
                 DoRequest (answering 401 OpaqueBody) GET "/tenants" NoData None;
                 DoLogin "t2" root; DoLogout]).
  { repeat constructor.
    intros config r [= <-] _. simpl. split; by eexists. }
  split; [exact H|].
  exact (proj1 (token_and_user_set_and_cleared_together _ H)).
Defined.

(** C4: once a request through the client has been answered with status
    401, every later request through the client leaves without an
    [Authorization] header, whatever happened in between (further requests
    with any outcome, failed login attempts, logout), as long as [login] was
    not called in between. *)
Theorem no_authorization_after_unauthorized
    (adapter : Adapter) (m : Method) (url : string) (data : Payload)
    (contentType : option string) (b : Browser) (r : Response.t)
    (evs : list Event)
    (adapter' : Adapter) (m' : Method) (url' : string) (data' : Payload)
    (contentType' : option string) :
  let b1 := snd (api_request adapter m url data contentType b) in
  let b2 := run b1 evs in
  adapter (requestInterceptor (mkConfig m url data contentType) b)
    = Responded r →
  Response.status r = 401%Z →
  loginCalls b2 = loginCalls b1 →
  getItem "token" b1 = None
  ∧ getItem "token" b2 = None
  ∧ ∃ sent fx,
      effects (snd (api_request adapter' m' url' data' contentType' b2))
        = effects b2 ++ Send sent :: fx
      ∧ authorization sent = None.
Proof.
  intros b1 b2 Hreply Hstatus Hlogins.
  assert (H1 : getItem "token" b1 = None).
  { subst b1. unfold api_request. rewrite dispatch_eq, Hreply.
    unfold settle, validateStatus, is401. rewrite Hstatus. simpl.
    rewrite Hstatus. simpl. storage_lookup. }
  assert (H2 : getItem "token" b2 = None)
    by (subst b2; by apply run_stays_logged_out).
  split; [exact H1|]. split; [exact H2|].
  destruct (api_request_sends adapter' m' url' data' contentType' b2)
    as [fx He].
  eexists _, fx. split; [exact He|].
  by rewrite api_request_authorization, H2.
Qed.

(** ** The login form *)

(** C8 (as amended): [onSubmit] always settles fulfilled. When the server
    accepts the credentials and its answer has a [data] object, the request
    is followed by exactly: the [login] call with the answer's [token] and
    [data.user] as they are (the returned token and user for the login
    envelope; undefined for a half the answer lacks), which stores them, the
    success toast, and the navigation to "/dashboard". When the request is
    rejected, [login] is not called, nothing is written to the session store,
    the provider state is untouched, there is no router navigation, and
    exactly one error toast is raised (the server's message, or 'Login
    failed'); the stored token and user and the location are left as they
    were unless the rejection is a 401 response, in which case the response
    interceptor has removed both stored values and assigned the login route
    to the location. A 2xx answer whose [data] is null or undefined makes the
    destructuring throw and ends in the same catch block with the store
    untouched. *)
Theorem login_submit_outcomes
    (adapter : Adapter) (data : LoginFormData) (b : Browser) :
  let sent := loginRequest data b in
  let b' := snd (onSubmit adapter data b) in
  fst (onSubmit adapter data b) = Fulfilled tt
  ∧ match settle (adapter sent) with
    | Fulfilled r =>
        match body_data (Response.data r) with
        | Some usr =>
            effects b'
              = effects b
                ++ [Send sent;
                    CallLogin (body_token (Response.data r)) usr;
                    SetItem "token" (stringOf (body_token (Response.data r)));
                    SetItem "user" (stringOf (stringifyUser usr));
                    ToastSuccess "Welcome back!"; RouterNavigate "/dashboard"]
            ∧ stored b'
              = (Some (stringOf (body_token (Response.data r))),
                 Some (stringOf (stringifyUser usr)))
            ∧ held b' = (body_token (Response.data r), usr)
            ∧ href b' = "/dashboard"
            ∧ (∀ tok u, Response.data r = LoginBody tok u →
                        stored b' = (Some tok, Some (serializeUser u))
                        ∧ held b' = (Some tok, Some u))
        | None =>
            effects b'
              = effects b
                ++ [Send sent; ConsoleError "Login failed" destructureError;
                    ToastError "Login failed"]
            ∧ stored b' = stored b ∧ held b' = held b ∧ href b' = href b
        end
    | Rejected error =>
        effects b'
          = effects b
            ++ Send sent
               :: (if is401 error
                   then [RemoveItem "token"; RemoveItem "user";
                         AssignHref "/login"]
                   else [])
            ++ [ConsoleError "Login failed" error;
                ToastError (or_else (response_message error) "Login failed")]
        ∧ loginCalls b' = loginCalls b
        ∧ held b' = held b
        ∧ stored b' = (if is401 error then (None, None) else stored b)
        ∧ href b' = (if is401 error then "/login" else href b)
    end.
Proof.
  intros sent b'. subst sent b'. rewrite onSubmit_eq. cbn [fst snd].
  split; [reflexivity|].
  destruct (settle _) as [r|error].
  - destruct (body_data (Response.data r)) as [usr|] eqn:Hd.
    + split; [storage_lookup|]. split; [storage_lookup|].
      split; [reflexivity|]. split; [reflexivity|].
      intros tok u Hb. rewrite Hb in Hd. injection Hd as <-. rewrite Hb.
      split; [storage_lookup|reflexivity].
    + repeat split; storage_lookup.
  - destruct (is401 error).
    + repeat split; try storage_lookup.
      unfold loginCalls. storage_lookup.
      rewrite List.filter_app. simpl. by rewrite app_nil_r.
    + repeat split; try storage_lookup.
      unfold loginCalls. storage_lookup.
      rewrite List.filter_app. simpl. by rewrite app_nil_r.
Qed.

Lemma login_submit_outcomes_witness :
  settle (answering 200 (LoginBody "t0" alice) (loginRequest credentials fresh))
  = Fulfilled (Response.mk 200 (LoginBody "t0" alice))
  ∧ stored (snd (onSubmit (answering 200 (LoginBody "t0" alice))
                          credentials fresh))
    = (Some "t0", Some (serializeUser alice))
  ∧ held (snd (onSubmit (answering 200 (LoginBody "t0" alice))
                        credentials fresh))
    = (Some "t0", Some alice).
Proof.
  split; [reflexivity|].
  pose proof (login_submit_outcomes (answering 200 (LoginBody "t0" alice))
                credentials fresh) as [_ H].
  cbv zeta in H.
  change (settle (answering 200 (LoginBody "t0" alice)
                    (loginRequest credentials fresh)))
    with (Fulfilled (Response.mk 200 (LoginBody "t0" alice))) in H.
  cbn [body_data Response.data LoginBody] in H.
  destruct H as (_ & _ & _ & _ & H).
  exact (H "t0" alice eq_refl).
Defined.

(** C8 (as stated) fails: alice is logged in and opens the login route,
    which is not guarded and renders the login screen; she submits
    credentials that the server rejects with 401. [login] is not called, yet
    the stored token and user are gone afterwards. *)
Lemma rejected_login_clears_existing_session :
  renderRoutes (auth aliceAtLogin) (href aliceAtLogin) = Page Login
  ∧ settle (answering 401 (MessageBody "Invalid credentials")
              (loginRequest credentials aliceAtLogin))
    = Rejected (AxiosError "Request failed" (Some badCredentials))
  ∧ loginCalls (snd (onSubmit (answering 401 (MessageBody "Invalid credentials"))
                              credentials aliceAtLogin))
    = loginCalls aliceAtLogin
  ∧ stored aliceAtLogin = (Some "t0", Some (serializeUser alice))
  ∧ stored (snd (onSubmit (answering 401 (MessageBody "Invalid credentials"))
                          credentials aliceAtLogin))
    = (None, None)
  ∧ stored (snd (onSubmit (answering 401 (MessageBody "Invalid credentials"))
                          credentials aliceAtLogin))
    ≠ stored aliceAtLogin.
Proof.
  repeat split; try (vm_compute; reflexivity).
  vm_compute. discriminate.
Qed.

(** ** Instances *)

Lemma unauthorized_clears_session_and_redirects_witness :
  response_of expired = Some unauthorized
  ∧ Response.status unauthorized = 401%Z
  ∧ fst (onRejected expired aliceLoggedIn) = Rejected expired
  ∧ getItem "token" (snd (onRejected expired aliceLoggedIn)) = None
  ∧ getItem "user" (snd (onRejected expired aliceLoggedIn)) = None
  ∧ href (snd (onRejected expired aliceLoggedIn)) = "/login"
  ∧ effects (snd (onRejected expired aliceLoggedIn))
    = effects aliceLoggedIn
      ++ [RemoveItem "token"; RemoveItem "user"; AssignHref "/login"].
Proof.
  split; [reflexivity|]. split; [reflexivity|].
  apply (unauthorized_clears_session_and_redirects
           expired unauthorized aliceLoggedIn); reflexivity.
Defined.

Lemma other_errors_pass_through_witness :
  (∀ r, response_of serverError = Some r → Response.status r ≠ 401%Z)
  ∧ onRejected serverError aliceLoggedIn = (Rejected serverError, aliceLoggedIn)
  ∧ onRejected (AxiosError "Network Error" None) aliceLoggedIn
    = (Rejected (AxiosError "Network Error" None), aliceLoggedIn).
Proof.
  split; [intros r [= <-]; simpl; lia|]. split.
  - apply (other_errors_pass_through serverError aliceLoggedIn).
    intros r [= <-]. simpl. lia.
  - apply (other_errors_pass_through
             (AxiosError "Network Error" None) aliceLoggedIn).
    intros r [=].
Defined.

Lemma navigation_and_dashboard_follow_role_witness :
  (linkLabels (Sidebar (Some alice) "/dashboard") = commonLabels
   ∧ Dashboard (Some alice) = Page StaffDashboard)
  ∧ (linkLabels (Sidebar (Some root) "/dashboard")
     = commonLabels ++ ["Account Management"]
     ∧ Dashboard (Some root) = Page AdminDashboard).
Proof.
  split.
  - destruct (navigation_and_dashboard_follow_role alice "/dashboard")
      as (Hnav & _ & Hstaff & _); [right; reflexivity|].
    split; [exact Hnav|]. apply Hstaff. reflexivity.
  - destruct (navigation_and_dashboard_follow_role root "/dashboard")
      as (Hnav & _ & _ & Hadmin); [left; reflexivity|].
    split; [exact Hnav|]. apply Hadmin. reflexivity.
Defined.

Lemma dashboard_defaults_to_admin_witness :
  User.role auditor ≠ "STAFF"
  ∧ Dashboard (Some auditor) = Page AdminDashboard
  ∧ Dashboard None = Page AdminDashboard.
Proof.
  split; [discriminate|]. split.
  - apply (dashboard_defaults_to_admin (Some auditor)).
    right. exists auditor. split; [reflexivity|discriminate].
  - apply (dashboard_defaults_to_admin None). left. reflexivity.
Defined.

Lemma staff_reaches_account_management_by_url_witness :
  isAuthenticated (auth aliceLoggedIn) = true
  ∧ user (auth aliceLoggedIn) = Some alice
  ∧ User.role alice = "STAFF"
  ∧ shows AccountManagement
      (renderRoutes (auth aliceLoggedIn) "/dashboard/account-management")
    = true
  ∧ ¬ In "Account Management"
        (linkLabels (Sidebar (Some alice) "/dashboard/account-management")).
Proof.
  split; [reflexivity|]. split; [reflexivity|]. split; [reflexivity|].
  apply (staff_reaches_account_management_by_url (auth aliceLoggedIn) alice);
    reflexivity.
Defined.

(** The scenario of the specification: [GET /tenants] answered 200, then
    [GET /properties] answered 401; whatever follows short of a login, the
    next [GET /landlords] goes out without [Authorization]. *)
Lemma no_authorization_after_unauthorized_witness :
  answering 401 (MessageBody "jwt expired")
    (requestInterceptor (mkConfig GET "/properties" NoData None) afterTenants)
  = Responded unauthorized
  ∧ authorization
      (requestInterceptor (mkConfig GET "/properties" NoData None) afterTenants)
    = Some "Bearer t0"
  ∧ ∃ sent fx,
      effects
        (snd (api_request (answering 200 OpaqueBody) GET "/landlords" NoData None
                (run (snd (api_request (answering 401 (MessageBody "jwt expired"))
                             GET "/properties" NoData None afterTenants))
                     interlude)))
      = effects
          (run (snd (api_request (answering 401 (MessageBody "jwt expired"))
                       GET "/properties" NoData None afterTenants))
               interlude)
        ++ Send sent :: fx
      ∧ authorization sent = None.
Proof.
  split; [reflexivity|]. split; [vm_compute; reflexivity|].
  apply (no_authorization_after_unauthorized
           (answering 401 (MessageBody "jwt expired"))
           GET "/properties" NoData None afterTenants unauthorized interlude
           (answering 200 OpaqueBody) GET "/landlords" NoData None).
  - reflexivity.
  - reflexivity.
  - vm_compute. reflexivity.
Defined.

(** * Further properties of the client *)

(** ** The request interceptor on arbitrary configs *)

(** X1: the request interceptor touches nothing but the [Authorization]
    header: method, base URL, url, data and every other header of the config
    are as the caller gave them. *)
Theorem requestInterceptor_touches_only_authorization
    (config : Config.t) (b : Browser) (name : string) :
  name ≠ "Authorization" →
  Config.method (requestInterceptor config b) = Config.method config
  ∧ Config.baseURL (requestInterceptor config b) = Config.baseURL config
  ∧ Config.url (requestInterceptor config b) = Config.url config
  ∧ Config.data (requestInterceptor config b) = Config.data config
  ∧ Config.headers (requestInterceptor config b) !! name
    = Config.headers config !! name.
Proof.
  intros Hne. unfold requestInterceptor.
  destruct (getItem "token" b) as [tok|]; [|done].
  destruct (truthy tok); [|done].
  simpl. repeat split. by apply lookup_insert_ne.
Qed.

Lemma requestInterceptor_touches_only_authorization_witness :
  "Accept" ≠ "Authorization"
  ∧ Config.url (requestInterceptor presetConfig aliceLoggedIn) = "/tenants"
  ∧ Config.headers (requestInterceptor presetConfig aliceLoggedIn) !! "Accept"
    = Some "application/json, text/plain, */*".
Proof.
  split; [discriminate|].
  destruct (requestInterceptor_touches_only_authorization
              presetConfig aliceLoggedIn "Accept") as (_ & _ & Hu & _ & Hh);
    [discriminate|].
  split; [exact Hu|]. rewrite Hh. vm_compute. reflexivity.
Defined.

(** X2: a stored non-empty token wins over whatever the config already
    holds, an [Authorization] header put there by the caller included: the
    request goes out with [Bearer <token>]. *)
Theorem stored_token_overrides_caller_authorization
    (config : Config.t) (b : Browser) (tok : string) :
  getItem "token" b = Some tok →
  tok ≠ EmptyString →
  authorization (requestInterceptor config b) = Some ("Bearer " +:+ tok).
Proof.
  intros Ht Hne. rewrite requestInterceptor_authorization, Ht.
  destruct tok; [done|reflexivity].
Qed.

Lemma stored_token_overrides_caller_authorization_witness :
  authorization presetConfig = Some "Basic abc"
  ∧ authorization (requestInterceptor presetConfig aliceLoggedIn)
    = Some "Bearer t0".
Proof.
  split; [vm_compute; reflexivity|].
  apply (stored_token_overrides_caller_authorization
           presetConfig aliceLoggedIn "t0").
  - vm_compute. reflexivity.
  - discriminate.
Defined.

(** X3: when no token is stored, or the stored value is the empty string,
    the interceptor returns the config it was given, so a header supplied by
    the caller goes out unchanged. *)
Theorem requestInterceptor_identity_without_token
    (config : Config.t) (b : Browser) :
  getItem "token" b = None ∨ getItem "token" b = Some EmptyString →
  requestInterceptor config b = config.
Proof.
  intros [H|H]; unfold requestInterceptor; rewrite H; reflexivity.
Qed.

Lemma requestInterceptor_identity_without_token_witness :
  getItem "token" fresh = None
  ∧ requestInterceptor presetConfig fresh = presetConfig
  ∧ getItem "token" (setItem "token" EmptyString fresh) = Some EmptyString
  ∧ requestInterceptor presetConfig (setItem "token" EmptyString fresh)
    = presetConfig.
Proof.
  split; [reflexivity|]. split.
  - apply (requestInterceptor_identity_without_token presetConfig fresh).
    left. reflexivity.
  - split; [vm_compute; reflexivity|].
    apply (requestInterceptor_identity_without_token presetConfig
             (setItem "token" EmptyString fresh)).
    right. vm_compute. reflexivity.
Defined.

(** X4: running the interceptor again on its own output, against the same
    storage, changes nothing. *)
Theorem requestInterceptor_idempotent (config : Config.t) (b : Browser) :
  requestInterceptor (requestInterceptor config b) b
  = requestInterceptor config b.
Proof.
  unfold requestInterceptor.
  destruct (getItem "token" b) as [tok|]; [|done].
  destruct (truthy tok); [|done].
  unfold setHeader. simpl. by rewrite insert_insert_eq.
Qed.

(** ** The response interceptor and the storage *)

(** X5: handling a 401 removes the 'token' and 'user' entries and nothing
    else: every other key reads back as before, and the provider's in-memory
    state is not touched. *)
Theorem unauthorized_removes_only_token_and_user
    (error : JsError) (b : Browser) (key : string) :
  is401 error = true →
  key ≠ "token" →
  key ≠ "user" →
  getItem key (snd (onRejected error b)) = getItem key b
  ∧ auth (snd (onRejected error b)) = auth b.
Proof.
  intros He Ht Hu. rewrite (onRejected_401 error b He). simpl.
  split; [|reflexivity].
  rewrite getItem_assignHref, !getItem_removeItem_ne by done. reflexivity.
Qed.

Lemma unauthorized_removes_only_token_and_user_witness :
  is401 expired = true
  ∧ getItem "theme" aliceWithTheme = Some "dark"
  ∧ getItem "theme" (snd (onRejected expired aliceWithTheme)) = Some "dark"
  ∧ getItem "token" (snd (onRejected expired aliceWithTheme)) = None
  ∧ isAuthenticated (auth (snd (onRejected expired aliceWithTheme))) = true.
Proof.
  split; [reflexivity|]. split; [vm_compute; reflexivity|].
  destruct (unauthorized_removes_only_token_and_user
              expired aliceWithTheme "theme") as [Hk Ha];
    [reflexivity|discriminate|discriminate|].
  split; [rewrite Hk; vm_compute; reflexivity|].
  split; [vm_compute; reflexivity|].
  rewrite Ha. reflexivity.
Defined.

(** X6: a 401 that arrives when neither 'token' nor 'user' is stored leaves
    the storage exactly as it is; only the location is set to the login
    route. *)
Theorem unauthorized_without_session_keeps_storage
    (error : JsError) (b : Browser) :
  is401 error = true →
  getItem "token" b = None →
  getItem "user" b = None →
  localStorage (snd (onRejected error b)) = localStorage b
  ∧ href (snd (onRejected error b)) = "/login".
Proof.
  intros He Ht Hu. rewrite (onRejected_401 error b He). simpl.
  split; [|reflexivity].
  unfold getItem in *. rewrite (delete_id _ "token") by done.
  by apply delete_id.
Qed.

Lemma unauthorized_without_session_keeps_storage_witness :
  is401 expired = true
  ∧ localStorage (snd (onRejected expired fresh)) = localStorage fresh
  ∧ href (snd (onRejected expired fresh)) = "/login".
Proof.
  split; [reflexivity|].
  apply (unauthorized_without_session_keeps_storage expired fresh);
    reflexivity.
Defined.



(** ** Routes and redirects *)

Lemma renderRoutes_login (a : AuthState) : renderRoutes a "/login" = Page Login.
Proof. reflexivity. Qed.

Lemma renderRoutes_dashboard (a : AuthState) :
  renderRoutes a "/dashboard"
  = ProtectedRoute (isAuthenticated a)
      (DashboardLayout (user a) "/dashboard" (Dashboard (user a))).
Proof. reflexivity. Qed.

Lemma renderRoutes_cases (a : AuthState) (pathname : string) :
  renderRoutes a pathname = Null
  ∨ renderRoutes a pathname = Page Login
  ∨ renderRoutes a pathname = Navigate "/dashboard" true
  ∨ (isAuthenticated a = false
     ∧ renderRoutes a pathname = Navigate "/login" true)
  ∨ (isAuthenticated a = true
     ∧ ∃ outlet, renderRoutes a pathname
                 = Fragment [DashboardLayout (user a) pathname outlet]).
Proof.
  unfold renderRoutes.
  destruct (matchRoutes pathname AppRoutes) as [[r c]|] eqn:Hm; [|by left].
  apply matchRoutes_In in Hm. simpl in Hm.
  destruct Hm as [<-|[<-|[<-|[]]]]; simpl.
  - right. by left.
  - destruct (isAuthenticated a) eqn:Ha; simpl.
    + do 4 right. split; [done|]. by eexists.
    + do 3 right. left. done.
  - do 2 right. by left.
Qed.

Lemma follow_S (fuel : nat) (a : AuthState) (pathname : string) :
  follow (S fuel) a pathname
  = match renderRoutes a pathname with
    | Navigate to r => follow fuel a to
    | n => (pathname, n)
    end.
Proof. reflexivity. Qed.

Lemma follow_login (fuel : nat) (a : AuthState) :
  follow fuel a "/login" = ("/login", Page Login).
Proof. destruct fuel; reflexivity. Qed.

Lemma follow_dashboard (fuel : nat) (a : AuthState) :
  follow (S fuel) a "/dashboard"
  = if isAuthenticated a
    then ("/dashboard",
          Fragment [DashboardLayout (user a) "/dashboard" (Dashboard (user a))])
    else ("/login", Page Login).
Proof.
  rewrite follow_S, renderRoutes_dashboard.
  destruct (isAuthenticated a); simpl; [reflexivity|apply follow_login].
Qed.

(** X8: without a session no location shows anything but the login screen:
    whatever the path, the rendered tree shows no screen other than Login,
    and following the redirects ends either at the login screen or, for a
    path the table does not serve, at nothing. *)
Theorem logged_out_sees_only_login (a : AuthState) (pathname : string) :
  isAuthenticated a = false →
  (∀ s, shows s (renderRoutes a pathname) = true → s = Login)
  ∧ (snd (follow 2 a pathname) = Page Login
     ∨ snd (follow 2 a pathname) = Null).
Proof.
  intros Ha. rewrite follow_S.
  destruct (renderRoutes_cases a pathname)
    as [H|[H|[H|[[_ H]|[Ha' _]]]]]; [..|congruence]; rewrite H.
  - split; [done|by right].
  - split; [|by left].
    intros s. simpl. by intros ->%bool_decide_eq_true.
  - split; [done|left]. by rewrite follow_dashboard, Ha.
  - split; [done|left]. by rewrite follow_login.
Qed.

Lemma logged_out_sees_only_login_witness :
  isAuthenticated (auth fresh) = false
  ∧ (∀ s, shows s (renderRoutes (auth fresh) "/dashboard/tenants") = true
          → s = Login)
  ∧ (snd (follow 2 (auth fresh) "/dashboard/tenants") = Page Login
     ∨ snd (follow 2 (auth fresh) "/dashboard/tenants") = Null).
Proof.
  split; [reflexivity|].
  apply (logged_out_sees_only_login (auth fresh) "/dashboard/tenants").
  reflexivity.
Defined.

(** X9: redirects never chain for long. For every session and every
    location, after at most two redirects what is rendered is not a redirect;
    and entering at "/" ends at the dashboard layout with the Dashboard
    component in its outlet when authenticated, at the login screen
    otherwise. *)
Theorem redirects_settle_within_two_hops (a : AuthState) (pathname : string) :
  isNavigate (snd (follow 2 a pathname)) = false
  ∧ follow 2 a "/"
    = if isAuthenticated a
      then ("/dashboard",
            Fragment [DashboardLayout (user a) "/dashboard"
                                      (Dashboard (user a))])
      else ("/login", Page Login).
Proof.
  split.
  - rewrite follow_S.
    destruct (renderRoutes_cases a pathname)
      as [H|[H|[H|[[_ H]|[_ [outlet H]]]]]]; rewrite H; try reflexivity.
    rewrite follow_dashboard. by destruct (isAuthenticated a).
  - rewrite follow_S.
    change (renderRoutes a "/") with (Navigate "/dashboard" true).
    apply follow_dashboard.
Qed.

(** ** The sidebar and the route table *)

Ltac case_pathname :=
  repeat match goal with
         | |- context [String.eqb ?p ?c] =>
             is_var p; destruct (String.eqb_spec p c) as [->|?]
         end.

(** X10: at most one navigation entry is highlighted, and it is the one
    whose path is the current location: the active links of the sidebar are
    exactly [pathname] when some entry has that path, and none otherwise. *)
Theorem sidebar_highlights_current_location
    (usr : option User.t) (pathname : string) :
  activeTargets (Sidebar usr pathname)
  = if existsb (String.eqb pathname) (linkTargets (Sidebar usr pathname))
    then [pathname]
    else [].
Proof.
  unfold Sidebar, navItems.
  destruct (roleIs "ADMIN" usr); simpl; case_pathname; reflexivity.
Qed.

(** X11: the sidebar has no dead links. Every entry it renders, for any
    user and location, is a link whose target the route table serves under
    the guarded layout: an authenticated session that follows it gets the
    dashboard layout with a non-empty outlet. *)
Theorem sidebar_links_are_served
    (usr : option User.t) (pathname : string) (a : AuthState) (n : Node) :
  In n (Sidebar usr pathname) →
  isAuthenticated a = true →
  ∃ to active label outlet,
    n = Link to active label
    ∧ renderRoutes a to = Fragment [DashboardLayout (user a) to outlet]
    ∧ outlet ≠ Null.
Proof.
  intros Hin Ha. unfold Sidebar in Hin. apply in_app_or in Hin.
  assert (Hd : Dashboard (user a) ≠ Null)
    by (unfold Dashboard; destruct (roleIs "STAFF" (user a)); discriminate).
  destruct Hin as [Hin|Hin].
  - simpl in Hin.
    repeat (destruct Hin as [<-|Hin];
            [do 4 eexists; split; [reflexivity|];
             unfold renderRoutes; simpl; rewrite Ha; simpl;
             split; [reflexivity|done || discriminate]|]).
    destruct Hin.
  - destruct (roleIs "ADMIN" usr); [|destruct Hin].
    destruct Hin as [<-|[]].
    do 4 eexists. split; [reflexivity|].
    unfold renderRoutes; simpl; rewrite Ha; simpl.
    split; [reflexivity|discriminate].
Qed.

Lemma sidebar_links_are_served_witness :
  In (Link "/dashboard/tenants" false "Tenants")
     (Sidebar (Some alice) "/dashboard")
  ∧ isAuthenticated (auth aliceLoggedIn) = true
  ∧ ∃ to active label outlet,
      Link "/dashboard/tenants" false "Tenants" = Link to active label
      ∧ renderRoutes (auth aliceLoggedIn) to
        = Fragment [DashboardLayout (user (auth aliceLoggedIn)) to outlet]
      ∧ outlet ≠ Null.
Proof.
  split; [right; left; reflexivity|]. split; [reflexivity|].
  apply (sidebar_links_are_served (Some alice) "/dashboard"
           (auth aliceLoggedIn) (Link "/dashboard/tenants" false "Tenants")).
  - right. left. reflexivity.
  - reflexivity.
Defined.

(** * Pages *)

(** ** Invoices and payments *)

Lemma isPending_spec (inv : Invoice.t) :
  isPending inv = true
  ↔ Invoice.status inv ≠ "PAID" ∧ Invoice.status inv ≠ "CANCELLED".
Proof.
  unfold isPending. rewrite andb_true_iff, !negb_true_iff.
  by rewrite !String.eqb_neq.
Qed.

(** X12: the record-payment modal never pre-fills the amount from an
    invoice that is paid or cancelled. When the effect calls [setValue], an
    invoice was selected, and the amount is that of an invoice of the fetched
    list that has the selected id and whose status is neither 'PAID' nor
    'CANCELLED'. *)
Theorem autofill_only_from_pending
    (selectedInvoiceId : string) (invoices : list Invoice.t) (amt : Z) :
  autofillAmount selectedInvoiceId (pendingInvoices invoices) = Some amt →
  selectedInvoiceId ≠ EmptyString
  ∧ ∃ inv, In inv invoices
           ∧ Invoice.id inv = selectedInvoiceId
           ∧ Invoice.amount inv = amt
           ∧ Invoice.status inv ≠ "PAID"
           ∧ Invoice.status inv ≠ "CANCELLED".
Proof.
  unfold autofillAmount, pendingInvoices.
  destruct selectedInvoiceId as [|c sel]; [done|]. simpl truthy. cbv iota.
  destruct (List.find _ _) as [inv|] eqn:Hf; [|done].
  intros [= <-]. split; [done|].
  apply List.find_some in Hf as [Hin Hid].
  apply List.filter_In in Hin as [Hin Hp].
  apply isPending_spec in Hp as [? ?].
  exists inv. by apply String.eqb_eq in Hid.
Qed.

Lemma autofill_only_from_pending_witness :
  autofillAmount (Invoice.id rentJune) (pendingInvoices [rentMay; rentJune])
  = Some 250000%Z
  ∧ autofillAmount (Invoice.id rentMay) (pendingInvoices [rentMay; rentJune])
    = None
  ∧ ∃ inv, In inv [rentMay; rentJune]
           ∧ Invoice.id inv = Invoice.id rentJune
           ∧ Invoice.amount inv = 250000%Z
           ∧ Invoice.status inv ≠ "PAID"
           ∧ Invoice.status inv ≠ "CANCELLED".
Proof.
  split; [reflexivity|]. split; [reflexivity|].
  apply (autofill_only_from_pending (Invoice.id rentJune)
           [rentMay; rentJune] 250000%Z).
  reflexivity.
Defined.

(** X13: the list offered in the record-payment modal is the fetched list
    without the paid and the cancelled invoices, in the same order; filtering
    it again changes nothing; and it is empty, which is when the 'No pending
    invoices found' notice is raised, exactly when every fetched invoice is
    paid or cancelled. *)
Theorem pending_invoices_characterized (invoices : list Invoice.t) :
  (∀ inv, In inv (pendingInvoices invoices)
          ↔ In inv invoices
            ∧ Invoice.status inv ≠ "PAID" ∧ Invoice.status inv ≠ "CANCELLED")
  ∧ sublist (pendingInvoices invoices) invoices
  ∧ pendingInvoices (pendingInvoices invoices) = pendingInvoices invoices
  ∧ (pendingInvoices invoices = []
     ↔ ∀ inv, In inv invoices
              → Invoice.status inv = "PAID" ∨ Invoice.status inv = "CANCELLED").
Proof.
  unfold pendingInvoices. split; [|split; [|split]].
  - intros inv. by rewrite List.filter_In, isPending_spec.
  - induction invoices as [|i l IH]; simpl; [constructor|].
    destruct (isPending i); by constructor.
  - induction invoices as [|i l IH]; simpl; [done|].
    destruct (isPending i) eqn:Hi; simpl; [|done]. by rewrite Hi, IH.
  - induction invoices as [|i l IH]; simpl.
    + split; [by intros _ inv []|done].
    + destruct (isPending i) eqn:Hi.
      * split; [done|]. intros H. exfalso.
        apply isPending_spec in Hi as [? ?].
        destruct (H i) as [?|?]; [by left|done..].
      * rewrite IH. split.
        -- intros H inv [<-|Hin]; [|by apply H].
           unfold isPending in Hi.
           destruct (String.eqb_spec (Invoice.status i) "PAID");
             [by left|].
           destruct (String.eqb_spec (Invoice.status i) "CANCELLED");
             [by right|done].
        -- intros H inv Hin. apply H. by right.
Qed.

(** X14: every invoice row offers at least one status change, never the
    status the invoice already has; it offers both 'PAID' and 'CANCELLED'
    exactly for the invoices the record-payment modal lists as pending. In
    particular a cancelled invoice can still be marked as paid and a paid one
    can still be cancelled. *)
Theorem invoice_row_actions (inv : Invoice.t) :
  rowActions inv ≠ []
  ∧ ¬ In (Invoice.status inv) (rowActions inv)
  ∧ (rowActions inv = ["PAID"; "CANCELLED"] ↔ isPending inv = true)
  ∧ (Invoice.status inv = "CANCELLED" → rowActions inv = ["PAID"])
  ∧ (Invoice.status inv = "PAID" → rowActions inv = ["CANCELLED"]).
Proof.
  unfold rowActions, isPending.
  destruct (String.eqb_spec (Invoice.status inv) "PAID") as [Hp|Hp];
    destruct (String.eqb_spec (Invoice.status inv) "CANCELLED") as [Hc|Hc];
    simpl.
  - rewrite Hp in Hc. discriminate Hc.
  - rewrite Hp. repeat split; try done. by intros [|[]].
  - rewrite Hc. repeat split; try done. by intros [|[]].
  - repeat split; try done. intros [?|[?|[]]]; congruence.
Qed.

(** X15: the status badge is gray for every status outside 'PAID',
    'PENDING', 'OVERDUE' and 'PARTIALLY_PAID' ('CANCELLED' included) and for
    those only, and two statuses that get the same non-gray badge are
    equal. *)
Theorem invoice_status_color_classes (s1 s2 : string) :
  (getStatusColor s1 = "bg-gray-500/10 text-gray-500"
   ↔ s1 ≠ "PAID" ∧ s1 ≠ "PENDING" ∧ s1 ≠ "OVERDUE" ∧ s1 ≠ "PARTIALLY_PAID")
  ∧ (getStatusColor s1 = getStatusColor s2 →
     getStatusColor s1 ≠ "bg-gray-500/10 text-gray-500" →
     s1 = s2).
Proof.
  unfold getStatusColor. split.
  - repeat match goal with
           | |- context [String.eqb s1 ?c] =>
               destruct (String.eqb_spec s1 c) as [->|?]
           end; split; try done; intros (? & ? & ? & ?); done.
  - repeat match goal with
           | |- context [String.eqb ?s ?c] =>
               is_var s; destruct (String.eqb_spec s c) as [->|?]
           end; simpl; done.
Qed.

Lemma invoice_row_actions_witness :
  Invoice.status rentMay = "PAID"
  ∧ rowActions rentMay = ["CANCELLED"]
  ∧ rowActions rentJune = ["PAID"; "CANCELLED"]
  ∧ isPending rentJune = true.
Proof.
  split; [reflexivity|].
  destruct (invoice_row_actions rentMay) as (_ & _ & _ & _ & Hpaid).
  destruct (invoice_row_actions rentJune) as (_ & _ & Hboth & _ & _).
  split; [apply Hpaid; reflexivity|].
  split; [apply Hboth; reflexivity|reflexivity].
Defined.

Lemma invoice_status_color_classes_witness :
  getStatusColor "CANCELLED" = "bg-gray-500/10 text-gray-500"
  ∧ getStatusColor "OVERDUE" ≠ "bg-gray-500/10 text-gray-500".
Proof.
  destruct (invoice_status_color_classes "CANCELLED" "CANCELLED") as [Hg _].
  destruct (invoice_status_color_classes "OVERDUE" "OVERDUE") as [Ho _].
  split.
  - apply Hg. repeat split; discriminate.
  - intros H. apply Ho in H as (_ & _ & H & _). by apply H.
Defined.

(** ** Labels *)

Lemma length_replaceFirst (c d : Ascii.ascii) (s : string) :
  String.length (replaceFirst c d s) = String.length s.
Proof.
  induction s as [|x s IH]; simpl; [done|].
  destruct (Ascii.eqb x c); simpl; by rewrite ?IH.
Qed.

Lemma occurrences_replaceFirst (c d : Ascii.ascii) (s : string) :
  d ≠ c →
  occurrences c (replaceFirst c d s) = pred (occurrences c s).
Proof.
  intros Hne. induction s as [|x s IH]; simpl; [done|].
  destruct (Ascii.eqb x c) eqn:Hx; simpl.
  - apply Ascii.eqb_neq in Hne. by rewrite Hne.
  - by rewrite Hx.
Qed.

Lemma replaceFirst_absent (c d : Ascii.ascii) (s : string) :
  occurrences c s = 0 → replaceFirst c d s = s.
Proof.
  induction s as [|x s IH]; simpl; [done|].
  destruct (Ascii.eqb x c); simpl; [done|]. intros H. by rewrite IH.
Qed.

Lemma append_String (x : Ascii.ascii) (s t : string) :
  String x s +:+ t = String x (s +:+ t).
Proof. reflexivity. Qed.

Lemma replaceFirst_split (c d : Ascii.ascii) (pre post : string) :
  occurrences c pre = 0 →
  replaceFirst c d (pre +:+ String c post) = pre +:+ String d post.
Proof.
  induction pre as [|x pre IH].
  - intros _. change (EmptyString +:+ String c post) with (String c post).
    simpl. by rewrite Ascii.eqb_refl.
  - rewrite !append_String. simpl.
    destruct (Ascii.eqb x c); [done|]. intros H. by rewrite IH.
Qed.

(** X16: the status label is the status with its first underscore, and only
    that one, replaced by a space: a status without underscore is its own
    label, and a status that reads [pre], an underscore, [post], with no
    underscore in [pre], has the label [pre], a space, [post]. Hence the
    label is as long as the status, has one underscore less, and is free of
    underscores exactly when the status has at most one. *)
Theorem statusLabel_replaces_first_underscore (status : string) :
  (occurrences underscore status = 0 → statusLabel status = status)
  ∧ (∀ pre post,
       status = pre +:+ String underscore post →
       occurrences underscore pre = 0 →
       statusLabel status = pre +:+ String space post)
  ∧ String.length (statusLabel status) = String.length status
  ∧ occurrences underscore (statusLabel status)
    = pred (occurrences underscore status)
  ∧ (occurrences underscore (statusLabel status) = 0
     ↔ occurrences underscore status ≤ 1).
Proof.
  unfold statusLabel.
  assert (H : occurrences underscore (replaceFirst underscore space status)
              = pred (occurrences underscore status))
    by (apply occurrences_replaceFirst; discriminate).
  split; [apply replaceFirst_absent|].
  split; [intros pre post -> Hpre; by apply replaceFirst_split|].
  split; [apply length_replaceFirst|]. split; [exact H|].
  rewrite H. lia.
Qed.

Lemma statusLabel_replaces_first_underscore_witness :
  occurrences underscore "NOT" = 0
  ∧ statusLabel "NOT_YET_ASSIGNED" = "NOT YET_ASSIGNED"
  ∧ statusLabel "IN_PROGRESS" = "IN PROGRESS"
  ∧ statusLabel "CLOSED" = "CLOSED".
Proof.
  split; [reflexivity|].
  destruct (statusLabel_replaces_first_underscore "NOT_YET_ASSIGNED")
    as (_ & Hfirst & _).
  destruct (statusLabel_replaces_first_underscore "IN_PROGRESS")
    as (_ & Hone & _).
  destruct (statusLabel_replaces_first_underscore "CLOSED") as (Hnone & _).
  split; [exact (Hfirst "NOT" "YET_ASSIGNED" eq_refl eq_refl)|].
  split; [exact (Hone "IN" "PROGRESS" eq_refl eq_refl)|].
  apply Hnone. reflexivity.
Defined.

Lemma substring_prefix (n : nat) (s : string) :
  ∃ rest, s = String.substring 0 n s +:+ rest
          ∧ String.length (String.substring 0 n s) = Nat.min n (String.length s).
Proof.
  revert s. induction n as [|n IH]; intros s.
  - exists s. by destruct s.
  - destruct s as [|c s]; simpl.
    + by exists EmptyString.
    + destruct (IH s) as (rest & Hs & Hl). exists rest.
      split; [|by rewrite Hl].
      change (String c s = String c (String.substring 0 n s +:+ rest)).
      by rewrite <- Hs.
Qed.

(** X17: the id shown in an invoice row is the first eight characters of
    the invoice id, or the whole id when it is shorter: it is a prefix of the
    id and its length is the smaller of 8 and the length of the id. *)
Theorem shortId_is_prefix (id : string) :
  ∃ rest, id = shortId id +:+ rest
          ∧ String.length (shortId id) = Nat.min 8 (String.length id).
Proof. apply substring_prefix. Qed.

(** ** Units of a property *)

(** X18: toggling a unit's status always yields 'VACANT' or 'OCCUPIED';
    every status other than 'VACANT' becomes 'VACANT', so toggling twice
    gives back the original status exactly when it was one of the two. *)
Theorem toggledStatus_two_valued (currentStatus : string) :
  (toggledStatus currentStatus = "OCCUPIED" ↔ currentStatus = "VACANT")
  ∧ (toggledStatus currentStatus = "VACANT" ↔ currentStatus ≠ "VACANT")
  ∧ (toggledStatus (toggledStatus currentStatus) = currentStatus
     ↔ currentStatus = "VACANT" ∨ currentStatus = "OCCUPIED").
Proof.
  unfold toggledStatus.
  destruct (String.eqb_spec currentStatus "VACANT") as [->|Hv]; simpl.
  - repeat split; try done. by left.
  - destruct (String.eqb_spec currentStatus "OCCUPIED") as [->|Ho].
    + repeat split; try done. by right.
    + repeat split; try done; intros H; try congruence.
      by destruct H.
Qed.

(** X19: updating the status of one unit keeps the list as long as it was
    and in the same order of ids; every unit with another id is unchanged,
    and every unit with the given id carries the new status and its old
    name. *)
Theorem withStatus_updates_matching_units
    (unitId newStatus : string) (existingUnits : list Unit.t) :
  map Unit.id (withStatus unitId newStatus existingUnits)
    = map Unit.id existingUnits
  ∧ map Unit.name (withStatus unitId newStatus existingUnits)
    = map Unit.name existingUnits
  ∧ Forall2 (λ unit unit',
               if String.eqb (Unit.id unit) unitId
               then Unit.status unit' = newStatus
               else unit' = unit)
            existingUnits (withStatus unitId newStatus existingUnits).
Proof.
  unfold withStatus.
  induction existingUnits as [|u l (IHi & IHn & IHf)]; simpl;
    [by repeat split|].
  rewrite IHi, IHn.
  destruct (String.eqb (Unit.id u) unitId) eqn:Hu; simpl.
  - repeat split. constructor; [by rewrite Hu|done].
  - repeat split. constructor; [by rewrite Hu|done].
Qed.

(** X20: marking a unit for deletion queues its id at the end of the
    deletion list and takes every unit with that id out of the displayed
    list, keeping all other units in their order; marking the same id again
    leaves the displayed list as it is. *)
Theorem markUnitForDeletion_removes_and_queues
    (unitId : string) (unitsToDelete : list string)
    (existingUnits : list Unit.t) :
  fst (markUnitForDeletion unitId (unitsToDelete, existingUnits))
    = unitsToDelete ++ [unitId]
  ∧ (∀ unit, In unit (snd (markUnitForDeletion unitId
                             (unitsToDelete, existingUnits)))
             ↔ In unit existingUnits ∧ Unit.id unit ≠ unitId)
  ∧ sublist (snd (markUnitForDeletion unitId (unitsToDelete, existingUnits)))
            existingUnits
  ∧ snd (markUnitForDeletion unitId
           (markUnitForDeletion unitId (unitsToDelete, existingUnits)))
    = snd (markUnitForDeletion unitId (unitsToDelete, existingUnits)).
Proof.
  unfold markUnitForDeletion. simpl. split; [done|]. split; [|split].
  - intros unit. rewrite List.filter_In, negb_true_iff.
    by rewrite String.eqb_neq.
  - induction existingUnits as [|u l IH]; simpl; [constructor|].
    destruct (negb _); by constructor.
  - induction existingUnits as [|u l IH]; simpl; [done|].
    destruct (negb _) eqn:Hu; simpl; [|done]. by rewrite Hu, IH.
Qed.

(** ** The landlords page *)

Section Landlords.
Import LandlordsPage.
Implicit Types (s : State) (b : Browser) (adapter : Adapter)
  (landlordsOf : Decoder).

Lemma awaitP_api_request {S} adapter m url data ct (s : S) b :
  awaitP (api_request adapter m url data ct) s b
  = match settle (adapter (requestInterceptor (mkConfig m url data ct) b)) with
    | Fulfilled r =>
        (Fulfilled r, s,
         log (Send (requestInterceptor (mkConfig m url data ct) b)) b)
    | Rejected error =>
        (Rejected error, s,
         afterRejection error
           (log (Send (requestInterceptor (mkConfig m url data ct) b)) b))
    end.
Proof.
  unfold awaitP, api_request, afterRejection. rewrite dispatch_eq.
  by destruct (settle _).
Qed.

Lemma effects_afterRejection error b :
  effects (afterRejection error b) = effects b ++ rejectionEffects error.
Proof.
  unfold afterRejection, rejectionEffects. destruct (is401 error).
  - apply effects_cleared.
  - by rewrite app_nil_r.
Qed.

Lemma fetchLandlords_eq adapter landlordsOf s b :
  fetchLandlords adapter landlordsOf s b
  = match settle (adapter (listRequest b)) with
    | Fulfilled r =>
        match body_data (Response.data r) with
        | Some _ =>
            (Fulfilled tt, setLoading false (setLandlords (landlordsOf r) s),
             log (Send (listRequest b)) b)
        | None =>
            (Fulfilled tt, setLoading false s,
             log (ToastError "Failed to fetch landlords")
               (log (ConsoleError "Failed to fetch landlords" accessError)
                  (log (Send (listRequest b)) b)))
        end
    | Rejected error =>
        (Fulfilled tt, setLoading false s,
         log (ToastError "Failed to fetch landlords")
           (log (ConsoleError "Failed to fetch landlords" error)
              (afterRejection error (log (Send (listRequest b)) b))))
    end.
Proof.
  unfold fetchLandlords, tryCatchFinally, andThen, api_get.
  rewrite awaitP_api_request. fold (listRequest b).
  destruct (settle _) as [r|error]; [|reflexivity].
  destruct (body_data (Response.data r)); reflexivity.
Qed.

(** X21: [fetchLandlords] never rejects and always ends with [loading]
    false, leaving every other flag of the page alone. When the request
    succeeds and [response.data.data] is an object, the list is set to its
    [landlords] field and nothing is shown to the user; this is so even when
    the field is missing, in which case the list becomes undefined and the
    table can no longer be rendered. When the request succeeds but
    [response.data.data] is null or undefined, or when the request is
    rejected, the previous list is kept and exactly one 'Failed to fetch
    landlords' toast is raised (after the 401 clean-up of the response
    interceptor, if the failure is a 401). *)
Theorem fetchLandlords_outcomes adapter landlordsOf s b :
  outcomeOf (fetchLandlords adapter landlordsOf s b) = Fulfilled tt
  ∧ loading (stateOf (fetchLandlords adapter landlordsOf s b)) = false
  ∧ setLoading (loading s)
      (setLandlords (landlords s)
         (stateOf (fetchLandlords adapter landlordsOf s b)))
    = s
  ∧ match settle (adapter (listRequest b)) with
    | Fulfilled r =>
        match body_data (Response.data r) with
        | Some _ =>
            landlords (stateOf (fetchLandlords adapter landlordsOf s b))
              = landlordsOf r
            ∧ rendersTable (stateOf (fetchLandlords adapter landlordsOf s b))
              = match landlordsOf r with
                | Some _ => true
                | None => false
                end
            ∧ effects (browserOf (fetchLandlords adapter landlordsOf s b))
              = effects b ++ [Send (listRequest b)]
        | None =>
            landlords (stateOf (fetchLandlords adapter landlordsOf s b))
              = landlords s
            ∧ effects (browserOf (fetchLandlords adapter landlordsOf s b))
              = effects b
                ++ [Send (listRequest b);
                    ConsoleError "Failed to fetch landlords" accessError;
                    ToastError "Failed to fetch landlords"]
        end
    | Rejected error =>
        landlords (stateOf (fetchLandlords adapter landlordsOf s b))
          = landlords s
        ∧ effects (browserOf (fetchLandlords adapter landlordsOf s b))
          = effects b
            ++ Send (listRequest b) :: rejectionEffects error
            ++ [ConsoleError "Failed to fetch landlords" error;
                ToastError "Failed to fetch landlords"]
    end.
Proof.
  rewrite fetchLandlords_eq.
  destruct (settle _) as [r|error].
  - destruct (body_data (Response.data r)) as [d|]; destruct s;
      repeat split.
    cbn. by rewrite <- !app_assoc.
  - destruct s; repeat split. unfold browserOf. cbn [snd log effects].
    rewrite effects_afterRejection. cbn [log effects].
    by rewrite <- !app_assoc.
Qed.

(** X22: a failed fetch on a page without landlords ends in the empty-state
    row: together with the error toast the table says 'No landlords found.',
    although the list was never received. While the first fetch is still
    running the row is not shown. *)
Theorem failed_fetch_shows_empty_row adapter landlordsOf s b error :
  settle (adapter (listRequest b)) = Rejected error →
  landlords s = Some [] →
  showsEmptyRow (stateOf (fetchLandlords adapter landlordsOf s b)) = true
  ∧ In (ToastError "Failed to fetch landlords")
       (effects (browserOf (fetchLandlords adapter landlordsOf s b)))
  ∧ showsEmptyRow initial = false.
Proof.
  intros Hs Hl. rewrite fetchLandlords_eq, Hs.
  unfold showsEmptyRow, stateOf, browserOf. cbn. rewrite Hl.
  repeat split. apply in_or_app. right. by left.
Qed.

Lemma failed_fetch_shows_empty_row_witness :
  settle (offline (listRequest fresh)) = Rejected (AxiosError "Network Error" None)
  ∧ landlords initial = Some []
  ∧ showsEmptyRow
      (stateOf (fetchLandlords offline landlordsOnFile initial fresh)) = true
  ∧ In (ToastError "Failed to fetch landlords")
       (effects (browserOf (fetchLandlords offline landlordsOnFile initial fresh)))
  ∧ showsEmptyRow initial = false.
Proof.
  split; [reflexivity|]. split; [reflexivity|].
  apply (failed_fetch_shows_empty_row offline landlordsOnFile initial fresh
           (AxiosError "Network Error" None)); reflexivity.
Defined.

Lemma listRequest_log (e : Effect) b : listRequest (log e b) = listRequest b.
Proof. reflexivity. Qed.

Lemma deleteSelected_eq adapter landlordsOf (id : string) s b :
  deleteSelected adapter landlordsOf id s b
  = match settle (adapter (deleteRequest id b)) with
    | Fulfilled r =>
        (Fulfilled tt,
         setLandlordToDelete None
           (setIsDeleting false
              (setIsDeleteModalOpen false
                 (stateOf
                    (fetchLandlords adapter landlordsOf (setIsDeleting true s)
                       (log (ToastSuccess "Landlord deleted successfully")
                          (log (Send (deleteRequest id b)) b)))))),
         browserOf
           (fetchLandlords adapter landlordsOf (setIsDeleting true s)
              (log (ToastSuccess "Landlord deleted successfully")
                 (log (Send (deleteRequest id b)) b))))
    | Rejected error =>
        (Fulfilled tt,
         setLandlordToDelete None (setIsDeleting false (setIsDeleting true s)),
         log (ToastError
                (or_else (response_message error) "Failed to delete landlord"))
           (log (ConsoleError "Failed to delete landlord" error)
              (afterRejection error (log (Send (deleteRequest id b)) b))))
    end.
Proof.
  unfold deleteSelected, tryCatchFinally, andThen, api_delete, setState.
  rewrite awaitP_api_request. fold (deleteRequest id b).
  destruct (settle _) as [r|error]; [|reflexivity].
  unfold awaitP, toast_success, exec, fireAndForget. cbn [fst snd].
  by destruct (fetchLandlords _ _ _ _) as [[o s'] b'].
Qed.

(** X23: without a selection [handleDelete] does nothing at all: when
    [landlordToDelete] is null, or the empty string, no request is sent, no
    toast is raised and the page state is left as it is. *)
Theorem handleDelete_without_selection adapter landlordsOf s b :
  landlordToDelete s = None ∨ landlordToDelete s = Some EmptyString →
  handleDelete adapter landlordsOf s b = (Fulfilled tt, s, b).
Proof. intros [H|H]; unfold handleDelete; by rewrite H. Qed.

Lemma handleDelete_without_selection_witness :
  landlordToDelete initial = None
  ∧ handleDelete (answering 204 OpaqueBody) landlordsOnFile initial aliceLoggedIn
    = (Fulfilled tt, initial, aliceLoggedIn).
Proof.
  split; [reflexivity|].
  apply (handleDelete_without_selection (answering 204 OpaqueBody)
           landlordsOnFile initial aliceLoggedIn).
  left. reflexivity.
Defined.

Lemma handleDelete_selected adapter landlordsOf s b (id : string) :
  landlordToDelete s = Some id →
  id ≠ EmptyString →
  handleDelete adapter landlordsOf s b
  = deleteSelected adapter landlordsOf id s b.
Proof.
  intros H Hne. unfold handleDelete. rewrite H. by destruct id.
Qed.

Lemma fetchLandlords_shape adapter landlordsOf s b :
  ∃ l b' fx,
    fetchLandlords adapter landlordsOf s b
    = (Fulfilled tt, setLoading false (setLandlords l s), b')
    ∧ effects b' = effects b ++ Send (listRequest b) :: fx.
Proof.
  rewrite fetchLandlords_eq.
  destruct (settle _) as [r|error].
  - destruct (body_data (Response.data r)) as [d|].
    + exists (landlordsOf r). eexists _, []. split; reflexivity.
    + exists (landlords s). eexists _, _. split; [reflexivity|].
      cbn. by rewrite <- !app_assoc.
  - exists (landlords s). eexists _, _. split; [reflexivity|].
    cbn [log effects]. rewrite effects_afterRejection. cbn [log effects].
    by rewrite <- !app_assoc.
Qed.

Lemma deleteRequest_shape (id : string) b :
  Config.method (deleteRequest id b) = DELETE
  ∧ Config.url (deleteRequest id b) = "/landlords/" +:+ id.
Proof.
  unfold deleteRequest, requestInterceptor.
  destruct (getItem "token" b) as [tok|]; [|done].
  by destruct (truthy tok).
Qed.

(** X24: a delete with a landlord selected starts with one DELETE request to
    [/landlords/<id>] and, whatever the server answers, never rejects and
    ends with [isDeleting] false and [landlordToDelete] null, the edit and add
    dialogs untouched; so calling [handleDelete] again right after does
    nothing. *)
Theorem handleDelete_always_resets adapter landlordsOf s b (id : string)
    (adapter' : Adapter) (landlordsOf' : Decoder) :
  landlordToDelete s = Some id →
  id ≠ EmptyString →
  outcomeOf (handleDelete adapter landlordsOf s b) = Fulfilled tt
  ∧ isDeleting (stateOf (handleDelete adapter landlordsOf s b)) = false
  ∧ landlordToDelete (stateOf (handleDelete adapter landlordsOf s b)) = None
  ∧ selectedLandlord (stateOf (handleDelete adapter landlordsOf s b))
    = selectedLandlord s
  ∧ isEditModalOpen (stateOf (handleDelete adapter landlordsOf s b))
    = isEditModalOpen s
  ∧ isAddModalOpen (stateOf (handleDelete adapter landlordsOf s b))
    = isAddModalOpen s
  ∧ (∃ fx, effects (browserOf (handleDelete adapter landlordsOf s b))
           = effects b ++ Send (deleteRequest id b) :: fx)
  ∧ Config.method (deleteRequest id b) = DELETE
  ∧ Config.url (deleteRequest id b) = "/landlords/" +:+ id
  ∧ handleDelete adapter' landlordsOf'
      (stateOf (handleDelete adapter landlordsOf s b))
      (browserOf (handleDelete adapter landlordsOf s b))
    = (Fulfilled tt,
       stateOf (handleDelete adapter landlordsOf s b),
       browserOf (handleDelete adapter landlordsOf s b)).
Proof.
  intros Hsel Hne.
  rewrite (handleDelete_selected _ _ _ _ _ Hsel Hne), deleteSelected_eq.
  destruct (deleteRequest_shape id b) as [Hm Hu].
  destruct (settle _) as [r|error].
  - destruct (fetchLandlords_shape adapter landlordsOf (setIsDeleting true s)
                (log (ToastSuccess "Landlord deleted successfully")
                   (log (Send (deleteRequest id b)) b)))
      as (l & b' & fx & -> & He).
    unfold outcomeOf, stateOf, browserOf. cbn.
    repeat split; try done.
    eexists. rewrite He. cbn. rewrite <- !app_assoc. reflexivity.
  - unfold outcomeOf, stateOf, browserOf. cbn.
    repeat split; try done.
    eexists. rewrite effects_afterRejection. cbn.
    rewrite <- !app_assoc. reflexivity.
Qed.

Lemma handleDelete_always_resets_witness :
  landlordToDelete adePicked = Some "l-1"
  ∧ isDeleting (stateOf (handleDelete deletesThenFails landlordsOnFile
                           adePicked aliceLoggedIn)) = false
  ∧ landlordToDelete (stateOf (handleDelete deletesThenFails landlordsOnFile
                                 adePicked aliceLoggedIn)) = None
  ∧ Config.url (deleteRequest "l-1" aliceLoggedIn) = "/landlords/l-1".
Proof.
  split; [reflexivity|].
  destruct (handleDelete_always_resets deletesThenFails landlordsOnFile
              adePicked aliceLoggedIn "l-1" offline noLandlordsField)
    as (_ & Hd & Hl & _ & _ & _ & _ & _ & Hu & _);
    [reflexivity|discriminate|].
  split; [exact Hd|]. split; [exact Hl|exact Hu].
Defined.

(** X25: when the DELETE is rejected, the confirmation dialog stays as it
    was, the list and the loading flag are untouched, the list is not fetched
    again, and exactly one error toast is raised: the server's message when
    it sent a non-empty one, 'Failed to delete landlord' otherwise. *)
Theorem handleDelete_failure adapter landlordsOf s b (id : string)
    (error : JsError) :
  landlordToDelete s = Some id →
  id ≠ EmptyString →
  settle (adapter (deleteRequest id b)) = Rejected error →
  isDeleteModalOpen (stateOf (handleDelete adapter landlordsOf s b))
    = isDeleteModalOpen s
  ∧ landlords (stateOf (handleDelete adapter landlordsOf s b)) = landlords s
  ∧ loading (stateOf (handleDelete adapter landlordsOf s b)) = loading s
  ∧ effects (browserOf (handleDelete adapter landlordsOf s b))
    = effects b
      ++ Send (deleteRequest id b) :: rejectionEffects error
      ++ [ConsoleError "Failed to delete landlord" error;
          ToastError
            (or_else (response_message error) "Failed to delete landlord")].
Proof.
  intros Hsel Hne Hs.
  rewrite (handleDelete_selected _ _ _ _ _ Hsel Hne), deleteSelected_eq, Hs.
  unfold stateOf, browserOf. cbn [fst snd log effects].
  repeat split. rewrite effects_afterRejection. cbn [log effects].
  by rewrite <- !app_assoc.
Qed.

Lemma handleDelete_failure_witness :
  landlordToDelete adePicked = Some "l-1"
  ∧ settle (answering 409 (MessageBody "Landlord has properties")
              (deleteRequest "l-1" aliceLoggedIn))
    = Rejected (AxiosError "Request failed"
                  (Some (Response.mk 409 (MessageBody "Landlord has properties"))))
  ∧ isDeleteModalOpen
      (stateOf (handleDelete (answering 409 (MessageBody "Landlord has properties"))
                  landlordsOnFile adePicked aliceLoggedIn))
    = true
  ∧ landlords
      (stateOf (handleDelete (answering 409 (MessageBody "Landlord has properties"))
                  landlordsOnFile adePicked aliceLoggedIn))
    = Some [ade; bisi].
Proof.
  split; [reflexivity|]. split; [reflexivity|].
  destruct (handleDelete_failure
              (answering 409 (MessageBody "Landlord has properties"))
              landlordsOnFile adePicked aliceLoggedIn "l-1"
              (AxiosError "Request failed"
                 (Some (Response.mk 409 (MessageBody "Landlord has properties")))))
    as (Hm & Hl & _ & _); [reflexivity|discriminate|reflexivity|].
  split; [exact Hm|exact Hl].
Defined.

(** X26: when the DELETE is accepted, the success toast is raised, the list
    is requested again and the confirmation dialog is closed, whether or not
    that second request succeeds. If the second answer is accepted and has a
    [data] object, the list shown afterwards is its [landlords] field and no
    further toast is raised, also when the field is missing and the list
    becomes undefined. If the second answer is accepted without a [data]
    object, or is rejected, the old list stays, which still contains the
    landlord that was deleted, next to one 'Failed to fetch landlords'
    toast. *)
Theorem handleDelete_success adapter landlordsOf s b (id : string)
    (r : Response.t) :
  landlordToDelete s = Some id →
  id ≠ EmptyString →
  settle (adapter (deleteRequest id b)) = Fulfilled r →
  isDeleteModalOpen (stateOf (handleDelete adapter landlordsOf s b)) = false
  ∧ loading (stateOf (handleDelete adapter landlordsOf s b)) = false
  ∧ match settle (adapter (listRequest b)) with
    | Fulfilled r' =>
        match body_data (Response.data r') with
        | Some _ =>
            landlords (stateOf (handleDelete adapter landlordsOf s b))
              = landlordsOf r'
            ∧ effects (browserOf (handleDelete adapter landlordsOf s b))
              = effects b
                ++ [Send (deleteRequest id b);
                    ToastSuccess "Landlord deleted successfully";
                    Send (listRequest b)]
        | None =>
            landlords (stateOf (handleDelete adapter landlordsOf s b))
              = landlords s
            ∧ effects (browserOf (handleDelete adapter landlordsOf s b))
              = effects b
                ++ [Send (deleteRequest id b);
                    ToastSuccess "Landlord deleted successfully";
                    Send (listRequest b);
                    ConsoleError "Failed to fetch landlords" accessError;
                    ToastError "Failed to fetch landlords"]
        end
    | Rejected error =>
        landlords (stateOf (handleDelete adapter landlordsOf s b))
          = landlords s
        ∧ effects (browserOf (handleDelete adapter landlordsOf s b))
          = effects b
            ++ [Send (deleteRequest id b);
                ToastSuccess "Landlord deleted successfully";
                Send (listRequest b)]
            ++ rejectionEffects error
            ++ [ConsoleError "Failed to fetch landlords" error;
                ToastError "Failed to fetch landlords"]
    end.
Proof.
  intros Hsel Hne Hs.
  rewrite (handleDelete_selected _ _ _ _ _ Hsel Hne), deleteSelected_eq, Hs.
  rewrite fetchLandlords_eq, !listRequest_log.
  destruct (settle (adapter (listRequest b))) as [r'|error].
  - destruct (body_data (Response.data r')) as [d|];
      unfold stateOf, browserOf; cbn; repeat split;
      by rewrite <- !app_assoc.
  - unfold stateOf, browserOf. cbn [fst snd log effects].
    repeat split. rewrite effects_afterRejection. cbn [log effects].
    by rewrite <- !app_assoc.
Qed.

Lemma handleDelete_success_witness :
  landlordToDelete adePicked = Some "l-1"
  ∧ settle (deletesThenFails (deleteRequest "l-1" aliceLoggedIn))
    = Fulfilled (Response.mk 204 OpaqueBody)
  ∧ isDeleteModalOpen
      (stateOf (handleDelete deletesThenFails landlordsOnFile
                  adePicked aliceLoggedIn))
    = false
  ∧ landlords (stateOf (handleDelete deletesThenFails landlordsOnFile
                          adePicked aliceLoggedIn))
    = Some [ade; bisi]
  ∧ isDeleteModalOpen
      (stateOf (handleDelete deletesThenListsNothing noLandlordsField
                  adePicked aliceLoggedIn))
    = false
  ∧ landlords (stateOf (handleDelete deletesThenListsNothing noLandlordsField
                          adePicked aliceLoggedIn))
    = None.
Proof.
  split; [reflexivity|]. split; [reflexivity|].
  destruct (handleDelete_success deletesThenFails landlordsOnFile
              adePicked aliceLoggedIn "l-1" (Response.mk 204 OpaqueBody))
    as (Hm & _ & _); [reflexivity|discriminate|reflexivity|].
  destruct (handleDelete_success deletesThenListsNothing noLandlordsField
              adePicked aliceLoggedIn "l-1" (Response.mk 204 OpaqueBody))
    as (Hm' & _ & _); [reflexivity|discriminate|reflexivity|].
  split; [exact Hm|]. split; [vm_compute; reflexivity|].
  split; [exact Hm'|]. vm_compute. reflexivity.
Defined.
End Landlords.

(** ** The staff dashboard *)

Section StaffDashboard.
Import StaffDashboardPage.

(** X27: whatever the server answers, once [fetchSummary] has settled the
    staff dashboard has a summary to show, its 'Open Maintenance' card reads
    5 and its 'Pending Leases' card reads 2. The two other cards show the
    server's counters (0 for a missing one) when the summary arrived, and 12
    tenants and 3 vacant units in every other case; a failure is only logged
    to the console, no toast is raised. *)
Theorem staff_summary_always_shown
    (adapter : Adapter) (summaryOf : Decoder) (s : option Summary)
    (b : Browser) :
  outcomeOf (fetchSummary adapter summaryOf s b) = Fulfilled tt
  ∧ (∃ tenants vacant,
       cards (stateOf (fetchSummary adapter summaryOf s b))
       = Some [ ("Open Maintenance", 5%Z); ("Vacant Units", vacant);
                ("Active Tenants", tenants); ("Pending Leases", 2%Z) ])
  ∧ match settle (adapter (summaryRequest b)) with
    | Fulfilled r =>
        match summaryOf r with
        | Some data =>
            stateOf (fetchSummary adapter summaryOf s b)
            = Some (mkSummary (orZero (dataTotalTenants data))
                              (orZero (dataTotalVacantUnits data)) 5 2)
            ∧ effects (browserOf (fetchSummary adapter summaryOf s b))
              = effects b ++ [Send (summaryRequest b)]
        | None =>
            stateOf (fetchSummary adapter summaryOf s b)
            = Some (mkSummary 12 3 5 2)
            ∧ effects (browserOf (fetchSummary adapter summaryOf s b))
              = effects b
                ++ [Send (summaryRequest b);
                    ConsoleError "Failed to fetch staff dashboard summary"
                                 accessError]
        end
    | Rejected error =>
        stateOf (fetchSummary adapter summaryOf s b)
        = Some (mkSummary 12 3 5 2)
        ∧ effects (browserOf (fetchSummary adapter summaryOf s b))
          = effects b
            ++ Send (summaryRequest b) :: rejectionEffects error
            ++ [ConsoleError "Failed to fetch staff dashboard summary" error]
    end.
Proof.
  unfold fetchSummary, tryCatch, tryCatchFinally, andThen, api_get.
  rewrite awaitP_api_request. fold (summaryRequest b).
  destruct (settle _) as [r|error].
  - destruct (summaryOf r) as [data|];
      unfold outcomeOf, stateOf, browserOf; cbn;
      (split; [reflexivity|]); (split; [by eexists _, _|]);
      split; try reflexivity.
    rewrite <- app_assoc. reflexivity.
  - unfold outcomeOf, stateOf, browserOf. cbn [fst snd].
    split; [reflexivity|]. split; [by eexists _, _|].
    split; [reflexivity|].
    unfold awaitP, console_error, exec, setState, finish.
    cbn [fst snd log effects]. rewrite effects_afterRejection.
    cbn [log effects]. by rewrite <- !app_assoc.
Qed.
End StaffDashboard.
